(** * Pedropathing-Parser: the [.pp] to Java converter of [autonomous_formatter.py]

    A shallow embedding of the three functions of the conversion logic,
    [f], [camel_case] and [convert], over the Python values that [json.load]
    produces, followed by the properties of the generated text.

    Conventions of the embedding.
    - A Python [str] is a [string]; the case mapping and the whitespace class
      are those of the ASCII range (code points below 128).
    - A Python [float] is a [spec_float] (binary64: precision 53, emax 1024);
      [format(v, ".3f")] is the correctly rounded (ties to even) decimal
      rendering of the exact binary value.
    - A Python [dict] is an association list in insertion order, its keys
      distinct; a subscript takes the first binding of the key.
    - An exception is a value of [exn]; a computation that may raise is a
      [result]. *)

From Stdlib Require Import ZArith List String Ascii Bool Lia SpecFloat.
From Stdlib Require Import Numbers.DecimalString.
Import ListNotations.

Open Scope list_scope.
Open Scope string_scope.

(** ** Python values and exceptions *)

Set Warnings "-register-all".

Inductive value : Type :=
| VNone
| VBool (b : bool)
| VInt (z : Z)
| VFloat (x : spec_float)
| VStr (s : string)
| VList (l : list value)
| VDict (d : list (string * value)).

Inductive exn : Type :=
| KeyError | TypeError | AttributeError | OverflowError | IndexError.

Inductive result (A : Type) : Type :=
| Ok (a : A)
| Raise (e : exn).

Arguments Ok {A} a.
Arguments Raise {A} e.

Definition bind {A B : Type} (m : result A) (k : A -> result B) : result B :=
  match m with
  | Ok a => k a
  | Raise e => Raise e
  end.

Notation "x <- m ;; k" := (bind m (fun x => k))
  (at level 61, m at next level, right associativity).

Fixpoint mapM {A B : Type} (g : A -> result B) (l : list A) : result (list B) :=
  match l with
  | [] => Ok []
  | a :: l' => b <- g a ;; bs <- mapM g l' ;; Ok (b :: bs)
  end.

(** ** Characters and strings *)

Definition nl : string := String (ascii_of_nat 10) EmptyString.
Definition dq : string := String (ascii_of_nat 34) EmptyString.

(** [str.isspace] on the ASCII range: TAB..CR, FS..US and SPACE; this is the
    class [\s] of a [str] pattern. *)
Definition is_space (c : ascii) : bool :=
  let n := nat_of_ascii c in
  ((9 <=? n)%nat && (n <=? 13)%nat) || ((28 <=? n)%nat && (n <=? 32)%nat).

(** The character class [[_\s]]. *)
Definition is_sep (c : ascii) : bool :=
  Ascii.eqb c "_" || is_space c.

Definition lower_char (c : ascii) : ascii :=
  let n := nat_of_ascii c in
  if (65 <=? n)%nat && (n <=? 90)%nat then ascii_of_nat (n + 32) else c.

Definition upper_char (c : ascii) : ascii :=
  let n := nat_of_ascii c in
  if (97 <=? n)%nat && (n <=? 122)%nat then ascii_of_nat (n - 32) else c.

(** [str.lower] *)
Fixpoint lower (s : string) : string :=
  match s with
  | EmptyString => EmptyString
  | String c s' => String (lower_char c) (lower s')
  end.

(** [str.capitalize]: first character upper-cased, the rest lower-cased. *)
Definition capitalize (s : string) : string :=
  match s with
  | EmptyString => EmptyString
  | String c s' => String (upper_char c) (lower s')
  end.

(** [str.rstrip(c)] for a one-character argument. *)
Fixpoint rstrip (c : ascii) (s : string) : string :=
  match s with
  | EmptyString => EmptyString
  | String a s' =>
      match rstrip c s' with
      | EmptyString => if Ascii.eqb a c then EmptyString else String a EmptyString
      | r => String a r
      end
  end.

(** [re.split(r'[_\s]+', s)].  [re_split_from in_sep s] is the list of the
    pieces of [s] still to come, its head being the rest of the piece under
    construction; [in_sep] tells that the scan is inside a match of the
    pattern, which extends greedily over every following separator. *)
Fixpoint re_split_from (in_sep : bool) (s : string) : list string :=
  match s with
  | EmptyString => [EmptyString]
  | String c s' =>
      if is_sep c then
        if in_sep then re_split_from true s'
        else EmptyString :: re_split_from true s'
      else
        match re_split_from false s' with
        | t :: ts => String c t :: ts
        | [] => [String c EmptyString]
        end
  end.

Definition re_split (s : string) : list string := re_split_from false s.

(** ** [camel_case] *)

Definition camel_case (s : string) : string :=
  let parts := re_split s in
  lower (hd EmptyString parts) ++ String.concat EmptyString (map capitalize (tl parts)).

(** ** [f]: numeric canonicalisation *)

(** [int.__format__] with a float presentation type converts the integer with
    [float(v)]: round to nearest even on 53 bits, [OverflowError] past the
    largest double. *)
Definition float_of_int (z : Z) : result spec_float :=
  match binary_normalize 53 1024 z 0 false with
  | S754_infinity _ => Raise OverflowError
  | x => Ok x
  end.

(** The integer nearest to [n / 2^k], ties to even ([0 <= k]). *)
Definition round_half_even (n k : Z) : Z :=
  let q := (n / 2 ^ k)%Z in
  let r := (n mod 2 ^ k)%Z in
  match (2 * r ?= 2 ^ k)%Z with
  | Lt => q
  | Eq => if Z.even q then q else (q + 1)%Z
  | Gt => (q + 1)%Z
  end.

(** The number of thousandths of [m * 2^e], correctly rounded. *)
Definition thousandths (m : positive) (e : Z) : Z :=
  if (0 <=? e)%Z then (Zpos m * 1000 * 2 ^ e)%Z
  else round_half_even (Zpos m * 1000) (- e).

Definition digit (d : Z) : ascii := ascii_of_N (48 + Z.to_N d).

Definition decimal (n : Z) : string := NilZero.string_of_uint (N.to_uint (Z.to_N n)).

Definition sign_str (s : bool) : string := if s then "-" else EmptyString.

(** [n] thousandths written with three decimals. *)
Definition fixed3 (s : bool) (n : Z) : string :=
  sign_str s ++ decimal (n / 1000)%Z ++ "." ++
  String (digit (n / 100 mod 10)%Z)
    (String (digit (n / 10 mod 10)%Z)
       (String (digit (n mod 10)%Z) EmptyString)).

(** [format(x, ".3f")] on a float. *)
Definition format_3f (x : spec_float) : string :=
  match x with
  | S754_nan => "nan"
  | S754_infinity s => sign_str s ++ "inf"
  | S754_zero s => fixed3 s 0
  | S754_finite s m e => fixed3 s (thousandths m e)
  end.

Definition strip_zeros_dot (s : string) : string := rstrip "." (rstrip "0" s).

Section Conversion.

(** The built-in [repr], which [str] falls back to on a [float], a [list] or
    a [dict]; it is not part of the converter and is left abstract. *)
Variable py_repr : value -> string.

(** [str(v)] *)
Definition str (v : value) : string :=
  match v with
  | VStr s => s
  | VNone => "None"
  | VBool true => "True"
  | VBool false => "False"
  | VInt z => if (z <? 0)%Z then "-" ++ decimal (- z) else decimal z
  | _ => py_repr v
  end.

(** [f(v)]: [bool] is a subclass of [int], so [True] and [False] take the
    numeric branch. *)
Definition f (v : value) : result string :=
  match v with
  | VBool b => x <- float_of_int (if b then 1 else 0) ;; Ok (strip_zeros_dot (format_3f x))
  | VInt z => x <- float_of_int z ;; Ok (strip_zeros_dot (format_3f x))
  | VFloat x => Ok (strip_zeros_dot (format_3f x))
  | _ => Ok (str v)
  end.

(** ** Access to Python values *)

(** [d[k]] on the association list of a [dict]. *)
Fixpoint lookup (k : string) (d : list (string * value)) : option value :=
  match d with
  | [] => None
  | (k', v) :: d' => if String.eqb k' k then Some v else lookup k d'
  end.

(** [v[k]] for a string key [k]: only a [dict] has string subscripts. *)
Definition getitem (v : value) (k : string) : result value :=
  match v with
  | VDict d =>
      match lookup k d with
      | Some x => Ok x
      | None => Raise KeyError
      end
  | _ => Raise TypeError
  end.

(** [v.get(k, default)]: only a [dict] has the method. *)
Definition get (v : value) (k : string) (default : value) : result value :=
  match v with
  | VDict d =>
      match lookup k d with
      | Some x => Ok x
      | None => Ok default
      end
  | _ => Raise AttributeError
  end.

Fixpoint chars (s : string) : list value :=
  match s with
  | EmptyString => []
  | String c s' => VStr (String c EmptyString) :: chars s'
  end.

(** The items that [for line in v] visits: the elements of a [list], the
    keys of a [dict], the characters of a [str]. *)
Definition iter (v : value) : result (list value) :=
  match v with
  | VList l => Ok l
  | VDict d => Ok (map (fun kv => VStr (fst kv)) d)
  | VStr s => Ok (chars s)
  | _ => Raise TypeError
  end.

(** [len(v)] *)
Definition len (v : value) : result nat :=
  match v with
  | VList l => Ok (List.length l)
  | VDict d => Ok (List.length d)
  | VStr s => Ok (String.length s)
  | _ => Raise TypeError
  end.

(** [v[0]]; the keys of a [dict] read from JSON are strings, so [0] is never
    one of them. *)
Definition first (v : value) : result value :=
  match v with
  | VList (x :: _) => Ok x
  | VList [] => Raise IndexError
  | VStr (String c _) => Ok (VStr (String c EmptyString))
  | VStr EmptyString => Raise IndexError
  | VDict _ => Raise KeyError
  | _ => Raise TypeError
  end.

(** [camel_case(v)]: [re.split] accepts a [str] only. *)
Definition camel_case_of (v : value) : result string :=
  match v with
  | VStr s => Ok (camel_case s)
  | _ => Raise TypeError
  end.

Definition str_nat (n : nat) : string := NilZero.string_of_uint (Nat.to_uint n).

(** ** [convert] *)

Definition start_pose_name : string := "startPose".

(** The start pose declaration (line 24). *)
Definition start_pose_decl (start : value) : result string :=
  sx <- (x <- getitem start "x" ;; f x) ;;
  sy <- (y <- getitem start "y" ;; f y) ;;
  sd <- (d <- get start "startDeg" (VInt 0) ;; f d) ;;
  Ok ("private final Pose " ++ start_pose_name ++ " = new Pose(" ++ sx ++ ", " ++ sy
      ++ ", Math.toRadians(" ++ sd ++ ")); // Start position").

(** The body of the loop that generates the poses (lines 29-32). *)
Definition pose_decl (line : value) : result string :=
  n <- getitem line "name" ;;
  name <- camel_case_of n ;;
  ep <- getitem line "endPoint" ;;
  deg <- (d <- get ep "endDeg" (VInt 0) ;; get ep "degrees" d) ;;
  sx <- (x <- getitem ep "x" ;; f x) ;;
  sy <- (y <- getitem ep "y" ;; f y) ;;
  sd <- f deg ;;
  Ok ("private final Pose " ++ name ++ "Pose = new Pose(" ++ sx ++ ", " ++ sy
      ++ ", Math.toRadians(" ++ sd ++ ")); // " ++ str n).

(** An element of [path_names] (line 35). *)
Definition path_name (line : value) : result string :=
  n <- getitem line "name" ;;
  name <- camel_case_of n ;;
  Ok (name ++ "Path").

(** [==] between a value and the literal ["constant"]. *)
Definition is_constant (heading : value) : bool :=
  match heading with
  | VStr s => String.eqb s "constant"
  | _ => false
  end.

Definition bezier_line (prev_pose end_pose : string) : string :=
  "        .addPath(new BezierLine(" ++ prev_pose ++ ", " ++ end_pose ++ "))" ++ nl.

Definition bezier_curve (prev_pose cx cy end_pose : string) : string :=
  "        .addPath(new BezierCurve(" ++ nl ++
  "                " ++ prev_pose ++ "," ++ nl ++
  "                new Pose(" ++ cx ++ ", " ++ cy ++ "), // Control point" ++ nl ++
  "                " ++ end_pose ++ nl ++
  "        ))" ++ nl.

Definition constant_heading (end_pose : string) : string :=
  "        .setConstantHeadingInterpolation(" ++ end_pose ++ ".getHeading())" ++ nl.

Definition linear_heading (prev_pose end_pose : string) : string :=
  "        .setLinearHeadingInterpolation(" ++ prev_pose ++ ".getHeading(), "
  ++ end_pose ++ ".getHeading())" ++ nl.

(** The body of the loop that builds the paths (lines 43-71): the statement,
    and the value of [prev_pose] for the next iteration. *)
Definition build_path (prev_pose : string) (line : value) : result (string * string) :=
  n <- getitem line "name" ;;
  name <- camel_case_of n ;;
  let end_pose := name ++ "Pose" in
  ep <- getitem line "endPoint" ;;
  heading <- get ep "heading" (VStr "linear") ;;
  control_points <- getitem line "controlPoints" ;;
  let build := name ++ "Path = follower.pathBuilder()" ++ nl in
  k <- len control_points ;;
  path <- (if Nat.eqb k 0 then Ok (bezier_line prev_pose end_pose)
           else
             cp <- first control_points ;;
             cx <- (x <- getitem cp "x" ;; f x) ;;
             cy <- (y <- getitem cp "y" ;; f y) ;;
             Ok (bezier_curve prev_pose cx cy end_pose)) ;;
  let interp := if is_constant heading then constant_heading end_pose
                else linear_heading prev_pose end_pose in
  Ok (build ++ path ++ interp ++ "        .build();", end_pose).

Fixpoint build_loop (prev_pose : string) (lines : list value) : result (list string) :=
  match lines with
  | [] => Ok []
  | line :: rest =>
      r <- build_path prev_pose line ;;
      builds <- build_loop (snd r) rest ;;
      Ok (fst r :: builds)
  end.

(** State [0]: no [isBusy] check (lines 81-86). *)
Definition first_case (i : nat) (name : string) : string :=
  "case " ++ str_nat i ++ ":" ++ nl ++
  "              follower.followPath(" ++ name ++ ");" ++ nl ++
  "              setPathState(" ++ str_nat (i + 1) ++ ");" ++ nl ++
  "              break;".

(** The states after the first, guarded by [isBusy] (lines 89-96). *)
Definition busy_case (i : nat) (name : string) : string :=
  "case " ++ str_nat i ++ ":" ++ nl ++
  "              if (!follower.isBusy()) {" ++ nl ++
  "                 follower.followPath(" ++ name ++ ");" ++ nl ++
  "                 setPathState(" ++ str_nat (i + 1) ++ ");" ++ nl ++
  "              }" ++ nl ++
  "              break;".

(** The final do-nothing state (lines 100-104). *)
Definition final_case (final_state : nat) : string :=
  "case " ++ str_nat final_state ++ ":" ++ nl ++
  "              // Done" ++ nl ++
  "              break;".

(** The body of the state machine generator (lines 77-96). *)
Definition update_case (i : nat) (line : value) : result string :=
  n <- getitem line "name" ;;
  name <- camel_case_of n ;;
  let name := name ++ "Path" in
  if Nat.eqb i 0 then Ok (first_case i name) else Ok (busy_case i name).

(** [for i, line in enumerate(lines)], counting from [i]. *)
Fixpoint update_loop (i : nat) (lines : list value) : result (list string) :=
  match lines with
  | [] => Ok []
  | line :: rest =>
      c <- update_case i line ;;
      cs <- update_loop (S i) rest ;;
      Ok (c :: cs)
  end.

(** The fragments that the template of [convert] puts together. *)
Record fragments : Type := {
  start_pose_line : string;
  poses : list string;
  path_vars : string;
  build_lines : list string;
  update_lines : list string
}.

Definition convert_fragments (json_data : value) : result fragments :=
  start <- getitem json_data "startPoint" ;;
  lines <- getitem json_data "lines" ;;
  start_pose_line <- start_pose_decl start ;;
  items <- iter lines ;;
  poses <- mapM pose_decl items ;;
  path_names <- mapM path_name items ;;
  let path_vars := "private PathChain " ++ String.concat ", " path_names ++ ";" in
  build_lines <- build_loop start_pose_name items ;;
  update_lines <- update_loop 0 items ;;
  let final_state := List.length items in
  Ok {| start_pose_line := start_pose_line;
        poses := poses;
        path_vars := path_vars;
        build_lines := build_lines;
        update_lines := (update_lines ++ [final_case final_state])%list |}.

(** The text of the generated class: the template of [convert], each line
    followed by a newline. *)
Definition assemble (class_name : string) (fr : fragments) : string :=
  let update_state_machine :=
    String.concat (nl ++ nl ++ "            ") (update_lines fr) in
  String.concat nl
    ["package org.firstinspires.ftc.teamcode.opModes.autonomous;";
     "import com.pedropathing.follower.Follower;";
     "import com.pedropathing.geometry.BezierCurve;";
     "import com.pedropathing.geometry.BezierLine;";
     "import com.pedropathing.geometry.Pose;";
     "import com.pedropathing.paths.PathChain;";
     "import com.pedropathing.util.Timer;";
     "import com.qualcomm.robotcore.eventloop.opmode.Autonomous;";
     "import com.qualcomm.robotcore.eventloop.opmode.LinearOpMode;";
     EmptyString;
     "import org.firstinspires.ftc.teamcode.pedroPathing.Constants;";
     EmptyString;
     "@Autonomous";
     "public class " ++ class_name ++ " extends LinearOpMode {";
     "    @Override";
     "    public void runOpMode() throws InterruptedException {";
     "        initialize();";
     "        waitForStart();";
     "        play();";
     "        if (isStopRequested()) return;";
     "        while (opModeIsActive()) update();";
     "    }";
     "    private void setPathState(int pState) {";
     "        pathState = pState;";
     "        pathTimer.resetTimer();";
     "    }";
     EmptyString;
     "    private Follower follower;";
     "    private Timer pathTimer;";
     "    private int pathState;";
     EmptyString;
     "    // Start Pose";
     "    " ++ start_pose_line fr;
     EmptyString;
     "    // Trajectory Poses";
     "    " ++ String.concat (nl ++ "    ") (poses fr);
     EmptyString;
     "    " ++ path_vars fr;
     EmptyString;
     "    public void buildPaths() {";
     "        " ++ String.concat (nl ++ nl ++ "        ") (build_lines fr);
     "    }";
     EmptyString;
     "    public void autonomousPathUpdate() {";
     "        switch (pathState) {";
     "            " ++ update_state_machine;
     "        }";
     "    }";
     EmptyString;
     "    private void initialize() {";
     "        pathTimer = new Timer();";
     "        follower = Constants.createFollower(hardwareMap);";
     "        buildPaths();";
     "        follower.setStartingPose(startPose);";
     "    }";
     EmptyString;
     "    private void play() {";
     "        setPathState(0);";
     "    }";
     EmptyString;
     "    private void update() {";
     "        follower.update();";
     "        autonomousPathUpdate();";
     EmptyString;
     "        telemetry.addData(" ++ dq ++ "path state" ++ dq ++ ", pathState);";
     "        telemetry.addData(" ++ dq ++ "x" ++ dq ++ ", follower.getPose().getX());";
     "        telemetry.addData(" ++ dq ++ "y" ++ dq ++ ", follower.getPose().getY());";
     "        telemetry.addData(" ++ dq ++ "heading" ++ dq ++ ", follower.getPose().getHeading());";
     "        telemetry.update();";
     "    }";
     "}";
     EmptyString].

Definition convert (json_data : value) (class_name : string) : result string :=
  fr <- convert_fragments json_data ;;
  Ok (assemble class_name fr).

(** ** The input schema

    The shape of the documents that [convert] reads: the fields it
    subscripts, with numbers where it formats numbers. *)

(** A JSON number as Python holds it: a [float], or an [int] that [float()]
    accepts. *)
Definition is_number (v : value) : bool :=
  match v with
  | VInt z =>
      match float_of_int z with
      | Ok _ => true
      | Raise _ => false
      end
  | VFloat _ => true
  | _ => false
  end.

Definition field (k : string) (v : value) : option value :=
  match v with
  | VDict d => lookup k d
  | _ => None
  end.

Definition optional_number (k : string) (v : value) : bool :=
  match field k v with
  | Some n => is_number n
  | None => true
  end.

Definition required_number (k : string) (v : value) : bool :=
  match field k v with
  | Some n => is_number n
  | None => false
  end.

(** Point: [x] and [y], and the optional headings [startDeg], [degrees] and
    [endDeg]; the [heading] field is free. *)
Definition is_point (v : value) : bool :=
  required_number "x" v && required_number "y" v &&
  optional_number "startDeg" v && optional_number "degrees" v &&
  optional_number "endDeg" v.

(** Segment: a [name], an [endPoint] and a list of [controlPoints]. *)
Definition is_segment (v : value) : bool :=
  match field "name" v, field "endPoint" v, field "controlPoints" v with
  | Some (VStr _), Some ep, Some (VList cps) => is_point ep && forallb is_point cps
  | _, _, _ => false
  end.

(** PathDocument: a [startPoint] and a list of [lines]. *)
Definition is_path_document (v : value) : bool :=
  match field "startPoint" v, field "lines" v with
  | Some start, Some (VList segs) => is_point start && forallb is_segment segs
  | _, _ => false
  end.

Definition doc_start (json_data : value) : value :=
  match field "startPoint" json_data with
  | Some start => start
  | None => VNone
  end.

Definition doc_lines (json_data : value) : list value :=
  match field "lines" json_data with
  | Some (VList segs) => segs
  | _ => []
  end.

Definition seg_name (seg : value) : string :=
  match field "name" seg with
  | Some (VStr s) => s
  | _ => EmptyString
  end.

Definition seg_end_point (seg : value) : value :=
  match field "endPoint" seg with
  | Some ep => ep
  | None => VNone
  end.

Definition seg_control_points (seg : value) : list value :=
  match field "controlPoints" seg with
  | Some (VList cps) => cps
  | _ => []
  end.

Definition coordinate (k : string) (pt : value) : value :=
  match field k pt with
  | Some n => n
  | None => VNone
  end.

(** ** The generated text, as the specification describes it *)

(** The float that a number stands for. *)
Definition float_of (v : value) : spec_float :=
  match v with
  | VInt z => binary_normalize 53 1024 z 0 false
  | VFloat x => x
  | _ => S754_nan
  end.

(** Canonical numeric text: three decimal digits, then trailing zeros and a
    trailing decimal point stripped. *)
Definition canon (v : value) : string :=
  rstrip "." (rstrip "0" (format_3f (float_of v))).

(** The double nearest to the decimal literal [n / d]. *)
Definition float_literal (n d : Z) : value :=
  VFloat (SFdiv 53 1024 (binary_normalize 53 1024 n 0 false)
                        (binary_normalize 53 1024 d 0 false)).

(** Identifier derivation from a segment name, and the identifiers of the
    segment's end pose and path. *)
Definition identifier (name : string) : string := camel_case name.
Definition end_pose_id (seg : value) : string := identifier (seg_name seg) ++ "Pose".
Definition path_id (seg : value) : string := identifier (seg_name seg) ++ "Path".

(** Heading of an end point: [degrees], else [endDeg], else [0]. *)
Definition end_heading (ep : value) : value :=
  match field "degrees" ep with
  | Some d => d
  | None =>
      match field "endDeg" ep with
      | Some d => d
      | None => VInt 0
      end
  end.

(** Heading of the start point: [startDeg], else [0]. *)
Definition start_heading (start : value) : value :=
  match field "startDeg" start with
  | Some d => d
  | None => VInt 0
  end.

Definition pose_text (id x y deg comment : string) : string :=
  "private final Pose " ++ id ++ " = new Pose(" ++ x ++ ", " ++ y
  ++ ", Math.toRadians(" ++ deg ++ ")); // " ++ comment.

Definition start_pose_text (start : value) : string :=
  pose_text start_pose_name (canon (coordinate "x" start)) (canon (coordinate "y" start))
            (canon (start_heading start)) "Start position".

Definition segment_pose_text (seg : value) : string :=
  let ep := seg_end_point seg in
  pose_text (end_pose_id seg) (canon (coordinate "x" ep)) (canon (coordinate "y" ep))
            (canon (end_heading ep)) (seg_name seg).

(** Heading mode: constant exactly when the end point's [heading] is the
    string ["constant"]. *)
Definition constant_mode (seg : value) : bool :=
  match field "heading" (seg_end_point seg) with
  | Some (VStr s) => String.eqb s "constant"
  | _ => false
  end.

(** The construction: a line without control point, a curve through the
    first control point otherwise. *)
Definition path_text (prev_pose : string) (seg : value) : string :=
  match seg_control_points seg with
  | [] => bezier_line prev_pose (end_pose_id seg)
  | cp :: _ =>
      bezier_curve prev_pose (canon (coordinate "x" cp)) (canon (coordinate "y" cp))
                   (end_pose_id seg)
  end.

Definition heading_text (prev_pose : string) (seg : value) : string :=
  if constant_mode seg then constant_heading (end_pose_id seg)
  else linear_heading prev_pose (end_pose_id seg).

Definition statement_text (prev_pose : string) (seg : value) : string :=
  path_id seg ++ " = follower.pathBuilder()" ++ nl
  ++ path_text prev_pose seg ++ heading_text prev_pose seg ++ "        .build();".

(** The pose that segment [i] starts from: the start pose for the first
    segment, the end pose of the segment before for the others. *)
Definition start_pose_of (segs : list value) (i : nat) : string :=
  match i with
  | O => start_pose_name
  | S j =>
      match nth_error segs j with
      | Some seg => end_pose_id seg
      | None => start_pose_name
      end
  end.

Fixpoint statements (prev_pose : string) (segs : list value) : list string :=
  match segs with
  | [] => []
  | seg :: rest => statement_text prev_pose seg :: statements (end_pose_id seg) rest
  end.

(** A state of the transition table: its index, the path it starts, whether
    it waits for the follower not to be busy, and the state it advances to. *)
Record state : Type := {
  state_index : nat;
  starts_path : option string;
  awaits_not_busy : bool;
  advances_to : option nat
}.

Definition transitional (i : nat) (path : string) : state :=
  {| state_index := i;
     starts_path := Some path;
     awaits_not_busy := negb (Nat.eqb i 0);
     advances_to := Some (i + 1) |}.

Definition terminal (k : nat) : state :=
  {| state_index := k;
     starts_path := None;
     awaits_not_busy := false;
     advances_to := None |}.

(** States [i], [i+1], ... for the given paths, then the terminal state. *)
Fixpoint states_from (i : nat) (paths : list string) : list state :=
  match paths with
  | [] => [terminal i]
  | p :: rest => transitional i p :: states_from (S i) rest
  end.

Definition state_table (paths : list string) : list state := states_from 0 paths.

(** The Java text of a state. *)
Definition render_state (s : state) : string :=
  "case " ++ str_nat (state_index s) ++ ":" ++ nl ++
  match starts_path s, advances_to s with
  | Some path, Some next =>
      if awaits_not_busy s then
        "              if (!follower.isBusy()) {" ++ nl ++
        "                 follower.followPath(" ++ path ++ ");" ++ nl ++
        "                 setPathState(" ++ str_nat next ++ ");" ++ nl ++
        "              }" ++ nl ++
        "              break;"
      else
        "              follower.followPath(" ++ path ++ ");" ++ nl ++
        "              setPathState(" ++ str_nat next ++ ");" ++ nl ++
        "              break;"
  | _, _ =>
      "              // Done" ++ nl ++
      "              break;"
  end.

(** The fragments of a well-formed document. *)
Definition document_fragments (json_data : value) : fragments :=
  let segs := doc_lines json_data in
  {| start_pose_line := start_pose_text (doc_start json_data);
     poses := map segment_pose_text segs;
     path_vars := "private PathChain " ++ String.concat ", " (map path_id segs) ++ ";";
     build_lines := statements start_pose_name segs;
     update_lines := map render_state (state_table (map path_id segs)) |}.

(** The pieces of a name: [pieces parts seps] holds when [parts] are free of
    separators, [seps] are non-empty runs of separators, one between any two
    consecutive parts, and every part that follows a run is non-empty unless
    it is the last one (runs are maximal). *)
Definition no_sep (s : string) : Prop :=
  forall c, In c (list_ascii_of_string s) -> is_sep c = false.

Definition is_run (s : string) : Prop :=
  s <> EmptyString /\ forall c, In c (list_ascii_of_string s) -> is_sep c = true.

Inductive pieces : list string -> list string -> Prop :=
| pieces_last (p : string) :
    no_sep p -> pieces [p] []
| pieces_cons (p sp q : string) (ps sps : list string) :
    no_sep p -> is_run sp -> (q = EmptyString -> ps = []) ->
    pieces (q :: ps) sps -> pieces (p :: q :: ps) (sp :: sps).

(** The name that the pieces and the runs between them spell. *)
Fixpoint interleave (parts seps : list string) : string :=
  match parts, seps with
  | p :: ps, sp :: sps => p ++ sp ++ interleave ps sps
  | p :: _, [] => p
  | [], _ => EmptyString
  end.

(** Whitespace-only (or empty) names. *)
Definition blank (s : string) : bool := forallb is_space (list_ascii_of_string s).

(** ** Sample documents *)

Definition no_repr (v : value) : string := EmptyString.

Definition point (x y : Z) (more : list (string * value)) : value :=
  VDict (("x", VInt x) :: ("y", VInt y) :: more).

Definition segment (name : string) (ep : value) (cps : list value) : value :=
  VDict [("name", VStr name); ("endPoint", ep); ("controlPoints", VList cps)].

Definition document (start : value) (segs : list value) : value :=
  VDict [("startPoint", start); ("lines", VList segs)].

(** A straight segment with linear heading, then a segment with constant
    heading and two control points. *)
Definition sample_doc : value :=
  document (point 0 0 [("startDeg", VInt 0)])
    [segment "Score_1" (point 24 36 [("degrees", VInt 90); ("endDeg", VInt 45)]) [];
     segment "go back" (point 1 2 [("heading", VStr "constant")])
             [point 5 6 []; point 7 8 []]].

Definition empty_doc : value := document (point 3 4 []) [].

(** A segment whose name is made of two spaces. *)
Definition blank_name_doc : value :=
  document (point 0 0 []) [segment "  " (point 1 2 []) []].

(** A start point that carries [degrees] and no [startDeg]. *)
Definition start_degrees_doc : value :=
  document (point 0 0 [("degrees", VInt 90)]) [].

(** ** Further notions used by the properties *)

(** The name without its separators. *)
Fixpoint strip_seps (s : string) : string :=
  match s with
  | EmptyString => EmptyString
  | String c s' => if is_sep c then strip_seps s' else String c (strip_seps s')
  end.

(** [k] copies of the character [c]. *)
Fixpoint replicate (k : nat) (c : ascii) : string :=
  match k with
  | O => EmptyString
  | S k' => String c (replicate k' c)
  end.

(** What a line must have for [convert] to go through it: a string [name],
    an [endPoint] that is a [dict] with [x] and [y], and [controlPoints]
    that [len] accepts. *)
Definition line_shape (line : value) : Prop :=
  exists name epd x y cps k,
    field "name" line = Some (VStr name) /\
    field "endPoint" line = Some (VDict epd) /\
    lookup "x" epd = Some x /\ lookup "y" epd = Some y /\
    field "controlPoints" line = Some cps /\ len cps = Ok k.

(** Names over the ASCII range, on which [lower], [capitalize] and [is_sep]
    are those of Python. *)
Definition is_ascii (s : string) : bool :=
  forallb (fun c => (nat_of_ascii c <? 128)%nat) (list_ascii_of_string s).

(** The values on which [f] returns: all but an integer that [float()]
    rejects. *)
Definition renders (v : value) : bool :=
  match v with
  | VInt _ => is_number v
  | _ => true
  end.

(** No line, and a start point whose [x] is an integer beyond the doubles. *)
Definition huge_coordinate_doc : value :=
  document (point (10 ^ 400) 0 []) [].

(** Two segments whose names differ by case and separators only. *)
Definition colliding_doc : value :=
  document (point 0 0 [])
    [segment "Go_Back" (point 1 2 []) []; segment "go  back" (point 3 4 []) []].

(** [lines] given as an empty [dict]. *)
Definition dict_lines_doc : value :=
  VDict [("startPoint", point 0 0 []); ("lines", VDict [])].

(** ** Basic facts *)

Lemma append_assoc (a b c : string) : (a ++ b) ++ c = a ++ b ++ c.
Proof.
  induction a as [|x a IH]; simpl; [reflexivity | now rewrite IH].
Qed.

Lemma append_nil_r (a : string) : a ++ EmptyString = a.
Proof.
  induction a as [|x a IH]; simpl; [reflexivity | now rewrite IH].
Qed.

Lemma getitem_field (v x : value) (k : string) :
  field k v = Some x -> getitem v k = Ok x.
Proof.
  destruct v; simpl; try discriminate.
  intros ->. reflexivity.
Qed.

Lemma field_dict (v x : value) (k : string) :
  field k v = Some x -> exists d, v = VDict d.
Proof.
  destruct v; simpl; try discriminate. eauto.
Qed.

Lemma get_dict (d : list (string * value)) (k : string) (default : value) :
  get (VDict d) k default =
  Ok (match field k (VDict d) with Some x => x | None => default end).
Proof.
  simpl. destruct (lookup k d); reflexivity.
Qed.

Lemma f_number (v : value) : is_number v = true -> f v = Ok (canon v).
Proof.
  destruct v; simpl; try discriminate.
  - unfold float_of_int, canon, strip_zeros_dot. simpl.
    destruct (binary_normalize 53 1024 z 0 false); simpl; congruence.
  - reflexivity.
Qed.

Lemma required_number_inv (k : string) (v : value) :
  required_number k v = true ->
  field k v = Some (coordinate k v) /\ is_number (coordinate k v) = true.
Proof.
  unfold required_number, coordinate.
  destruct (field k v); [auto | discriminate].
Qed.

Lemma is_point_inv (v : value) :
  is_point v = true ->
  (exists d, v = VDict d) /\
  field "x" v = Some (coordinate "x" v) /\ is_number (coordinate "x" v) = true /\
  field "y" v = Some (coordinate "y" v) /\ is_number (coordinate "y" v) = true /\
  is_number (start_heading v) = true /\ is_number (end_heading v) = true.
Proof.
  unfold is_point. intros H.
  repeat (apply andb_prop in H; destruct H as [H ?]).
  apply required_number_inv in H. destruct H as [Hx Hnx].
  match goal with Hy : required_number "y" v = true |- _ =>
    apply required_number_inv in Hy; destruct Hy as [Hy Hny] end.
  repeat split; auto.
  - eapply field_dict; eauto.
  - unfold start_heading. unfold optional_number in *.
    destruct (field "startDeg" v); auto.
  - unfold end_heading. unfold optional_number in *.
    destruct (field "degrees" v); auto.
    destruct (field "endDeg" v); auto.
Qed.

Lemma is_segment_inv (seg : value) :
  is_segment seg = true ->
  field "name" seg = Some (VStr (seg_name seg)) /\
  field "endPoint" seg = Some (seg_end_point seg) /\
  field "controlPoints" seg = Some (VList (seg_control_points seg)) /\
  is_point (seg_end_point seg) = true /\
  forallb is_point (seg_control_points seg) = true.
Proof.
  unfold is_segment, seg_name, seg_end_point, seg_control_points.
  destruct (field "name" seg) as [[]|]; try discriminate.
  destruct (field "endPoint" seg); try discriminate.
  destruct (field "controlPoints" seg) as [[]|]; try discriminate.
  intros H. apply andb_prop in H. destruct H. auto.
Qed.

Lemma is_path_document_inv (json_data : value) :
  is_path_document json_data = true ->
  field "startPoint" json_data = Some (doc_start json_data) /\
  field "lines" json_data = Some (VList (doc_lines json_data)) /\
  is_point (doc_start json_data) = true /\
  forallb is_segment (doc_lines json_data) = true.
Proof.
  unfold is_path_document, doc_start, doc_lines.
  destruct (field "startPoint" json_data); try discriminate.
  destruct (field "lines" json_data) as [[]|]; try discriminate.
  intros H. apply andb_prop in H. destruct H. auto.
Qed.

(** ** The loop bodies on well-formed input *)

Lemma coordinate_ok (k : string) (pt : value) :
  field k pt = Some (coordinate k pt) -> is_number (coordinate k pt) = true ->
  (x <- getitem pt k ;; f x) = Ok (canon (coordinate k pt)).
Proof.
  intros Hf Hn. rewrite (getitem_field _ _ _ Hf). simpl. apply f_number, Hn.
Qed.

Lemma start_pose_decl_ok (start : value) :
  is_point start = true -> start_pose_decl start = Ok (start_pose_text start).
Proof.
  intros H. apply is_point_inv in H.
  destruct H as ([d ->] & Hx & Hnx & Hy & Hny & Hs & _).
  unfold start_pose_decl.
  rewrite (coordinate_ok "x" _ Hx Hnx). cbn [bind].
  rewrite (coordinate_ok "y" _ Hy Hny). cbn [bind].
  rewrite get_dict. cbn [bind].
  fold (start_heading (VDict d)). rewrite (f_number _ Hs). reflexivity.
Qed.

Lemma end_heading_ok (d : list (string * value)) :
  (x <- get (VDict d) "endDeg" (VInt 0) ;; get (VDict d) "degrees" x)
  = Ok (end_heading (VDict d)).
Proof.
  rewrite get_dict. cbn [bind]. rewrite get_dict. unfold end_heading.
  destruct (field "degrees" (VDict d)); reflexivity.
Qed.

Lemma pose_decl_ok (seg : value) :
  is_segment seg = true -> pose_decl seg = Ok (segment_pose_text seg).
Proof.
  intros H. apply is_segment_inv in H. destruct H as (Hn & Hep & _ & Hp & _).
  apply is_point_inv in Hp. destruct Hp as ([d Hd] & Hx & Hnx & Hy & Hny & _ & He).
  unfold pose_decl, segment_pose_text, end_pose_id, identifier.
  rewrite (getitem_field _ _ _ Hn). cbn [bind camel_case_of].
  rewrite (getitem_field _ _ _ Hep). cbn [bind].
  rewrite (coordinate_ok "x" _ Hx Hnx), (coordinate_ok "y" _ Hy Hny).
  revert He. rewrite Hd. intros He.
  rewrite end_heading_ok. cbn [bind].
  rewrite (f_number _ He). cbn [bind str]. unfold pose_text.
  rewrite !append_assoc. reflexivity.
Qed.

Lemma path_name_ok (seg : value) :
  is_segment seg = true -> path_name seg = Ok (path_id seg).
Proof.
  intros H. apply is_segment_inv in H. destruct H as (Hn & _).
  unfold path_name. rewrite (getitem_field _ _ _ Hn). reflexivity.
Qed.

Lemma constant_mode_ok (seg : value) (d : list (string * value)) :
  seg_end_point seg = VDict d ->
  is_constant (match field "heading" (VDict d) with
               | Some x => x
               | None => VStr "linear"
               end) = constant_mode seg.
Proof.
  intros H. unfold constant_mode. rewrite H.
  destruct (field "heading" (VDict d)); reflexivity.
Qed.

Lemma control_point_ok (prev_pose end_pose : string) (cp : value) (cps : list value) :
  is_point cp = true ->
  (c <- first (VList (cp :: cps)) ;;
   cx <- (x <- getitem c "x" ;; f x) ;;
   cy <- (y <- getitem c "y" ;; f y) ;;
   Ok (bezier_curve prev_pose cx cy end_pose))
  = Ok (bezier_curve prev_pose (canon (coordinate "x" cp)) (canon (coordinate "y" cp))
                     end_pose).
Proof.
  intros H. apply is_point_inv in H. destruct H as (_ & Hx & Hnx & Hy & Hny & _).
  cbn [first bind].
  rewrite (coordinate_ok "x" _ Hx Hnx), (coordinate_ok "y" _ Hy Hny). reflexivity.
Qed.

Lemma build_path_ok (prev_pose : string) (seg : value) :
  is_segment seg = true ->
  build_path prev_pose seg = Ok (statement_text prev_pose seg, end_pose_id seg).
Proof.
  intros H. apply is_segment_inv in H. destruct H as (Hn & Hep & Hcp & Hp & Hcps).
  destruct (is_point_inv _ Hp) as ([d Hd] & _).
  unfold build_path.
  rewrite (getitem_field _ _ _ Hn). cbn [bind camel_case_of].
  rewrite (getitem_field _ _ _ Hep). cbn [bind]. rewrite Hd at 1.
  rewrite get_dict. cbn [bind]. rewrite (constant_mode_ok seg d Hd).
  rewrite (getitem_field _ _ _ Hcp). cbn [bind len].
  unfold statement_text, path_text, heading_text, path_id, end_pose_id, identifier.
  destruct (seg_control_points seg) as [|cp cps].
  - cbn [List.length Nat.eqb bind]. rewrite !append_assoc. reflexivity.
  - cbn [List.length Nat.eqb]. simpl in Hcps. apply andb_prop in Hcps.
    destruct Hcps as [Hc _]. rewrite (control_point_ok _ _ cp cps Hc).
    cbn [bind]. rewrite !append_assoc. reflexivity.
Qed.

Lemma build_loop_ok (segs : list value) :
  forallb is_segment segs = true ->
  forall prev_pose, build_loop prev_pose segs = Ok (statements prev_pose segs).
Proof.
  induction segs as [|seg rest IH]; intros H prev_pose; [reflexivity|].
  simpl in H. apply andb_prop in H. destruct H as [Hs Hr].
  cbn [build_loop statements]. rewrite (build_path_ok _ _ Hs). cbn [bind fst snd].
  rewrite (IH Hr). reflexivity.
Qed.

Lemma final_case_terminal (k : nat) : final_case k = render_state (terminal k).
Proof. reflexivity. Qed.

Lemma update_case_ok (i : nat) (seg : value) :
  is_segment seg = true ->
  update_case i seg = Ok (render_state (transitional i (path_id seg))).
Proof.
  intros H. apply is_segment_inv in H. destruct H as (Hn & _).
  unfold update_case. rewrite (getitem_field _ _ _ Hn). cbn [bind camel_case_of].
  unfold render_state, transitional, path_id, identifier. cbn [state_index starts_path
    awaits_not_busy advances_to].
  destruct (Nat.eqb i 0); reflexivity.
Qed.

Lemma update_loop_ok (segs : list value) :
  forallb is_segment segs = true ->
  forall i, exists cases,
    update_loop i segs = Ok cases /\
    (cases ++ [final_case (i + List.length segs)])%list
    = map render_state (states_from i (map path_id segs)).
Proof.
  induction segs as [|seg rest IH]; intros H i.
  - exists []. split; [reflexivity|]. simpl. now rewrite Nat.add_0_r.
  - simpl in H. apply andb_prop in H. destruct H as [Hs Hr].
    destruct (IH Hr (S i)) as (cases & Hc & Heq).
    exists (render_state (transitional i (path_id seg)) :: cases). split.
    + cbn [update_loop]. rewrite (update_case_ok _ _ Hs). cbn [bind].
      rewrite Hc. reflexivity.
    + cbn [map states_from List.length app]. rewrite <- Heq.
      now rewrite Nat.add_succ_r.
Qed.

Lemma mapM_ok {A B : Type} (g : A -> result B) (h : A -> B) (p : A -> bool) (l : list A) :
  (forall a, p a = true -> g a = Ok (h a)) ->
  forallb p l = true -> mapM g l = Ok (map h l).
Proof.
  intros Hg. induction l as [|a l IH]; intros H; [reflexivity|].
  simpl in H. apply andb_prop in H. destruct H as [Ha Hl].
  cbn [mapM map]. rewrite (Hg a Ha). cbn [bind]. rewrite (IH Hl). reflexivity.
Qed.

(** Conversion of a well-formed document succeeds, with the fragments that
    the specification describes. *)
Lemma convert_fragments_ok (json_data : value) :
  is_path_document json_data = true ->
  convert_fragments json_data = Ok (document_fragments json_data).
Proof.
  intros H. apply is_path_document_inv in H. destruct H as (Hs & Hl & Hp & Hsegs).
  unfold convert_fragments.
  rewrite (getitem_field _ _ _ Hs). cbn [bind].
  rewrite (getitem_field _ _ _ Hl). cbn [bind].
  rewrite (start_pose_decl_ok _ Hp). cbn [bind iter].
  rewrite (mapM_ok pose_decl segment_pose_text is_segment _ pose_decl_ok Hsegs).
  cbn [bind].
  rewrite (mapM_ok path_name path_id is_segment _ path_name_ok Hsegs).
  cbn [bind].
  rewrite (build_loop_ok _ Hsegs). cbn [bind].
  destruct (update_loop_ok _ Hsegs 0) as (cases & Hc & Heq).
  rewrite Hc. cbn [bind]. unfold document_fragments, state_table.
  rewrite <- Heq. reflexivity.
Qed.

Lemma convert_ok (json_data : value) (class_name : string) :
  is_path_document json_data = true ->
  convert json_data class_name
  = Ok (assemble class_name (document_fragments json_data)).
Proof.
  intros H. unfold convert. rewrite (convert_fragments_ok _ H). reflexivity.
Qed.

(** ** Index alignment of the fragments *)

Lemma statements_length (segs : list value) :
  forall prev_pose, List.length (statements prev_pose segs) = List.length segs.
Proof.
  induction segs as [|seg rest IH]; intros prev_pose; simpl; [reflexivity|].
  now rewrite IH.
Qed.

Lemma statements_nth (segs : list value) :
  forall prev_pose i seg,
    nth_error segs i = Some seg ->
    nth_error (statements prev_pose segs) i
    = Some (statement_text
              (match i with
               | O => prev_pose
               | S j =>
                   match nth_error segs j with
                   | Some before => end_pose_id before
                   | None => prev_pose
                   end
               end) seg).
Proof.
  induction segs as [|s0 rest IH]; intros prev_pose i seg H.
  - destruct i; discriminate.
  - destruct i as [|j]; simpl in H.
    + injection H as ->. reflexivity.
    + cbn [statements nth_error]. rewrite (IH (end_pose_id s0) j seg H).
      destruct j as [|j']; [reflexivity|]. cbn [nth_error].
      assert (Hlt : (j' < List.length rest)%nat).
      { assert (Hs : nth_error rest (S j') <> None) by congruence.
        apply nth_error_Some in Hs. lia. }
      apply nth_error_Some in Hlt.
      destruct (nth_error rest j'); [reflexivity | congruence].
Qed.

Lemma build_lines_nth (json_data : value) (i : nat) (seg : value) :
  nth_error (doc_lines json_data) i = Some seg ->
  nth_error (build_lines (document_fragments json_data)) i
  = Some (statement_text (start_pose_of (doc_lines json_data) i) seg).
Proof.
  intros H. unfold document_fragments. cbn [build_lines].
  rewrite (statements_nth _ start_pose_name i seg H). reflexivity.
Qed.

Lemma poses_nth (json_data : value) (i : nat) (seg : value) :
  nth_error (doc_lines json_data) i = Some seg ->
  nth_error (poses (document_fragments json_data)) i = Some (segment_pose_text seg).
Proof.
  intros H. unfold document_fragments. cbn [poses].
  now apply map_nth_error.
Qed.


Lemma states_from_nth (paths : list string) :
  forall i0 i p,
    nth_error paths i = Some p ->
    nth_error (states_from i0 paths) i = Some (transitional (i0 + i) p).
Proof.
  induction paths as [|p0 rest IH]; intros i0 i p H.
  - destruct i; discriminate.
  - destruct i as [|j]; simpl in H.
    + injection H as ->. simpl. now rewrite Nat.add_0_r.
    + cbn [states_from nth_error]. rewrite (IH (S i0) j p H).
      now rewrite Nat.add_succ_r.
Qed.


Lemma first_case_render (i : nat) (path : string) :
  render_state {| state_index := i; starts_path := Some path;
                  awaits_not_busy := false; advances_to := Some (i + 1) |}
  = first_case i path.
Proof. reflexivity. Qed.

Lemma busy_case_render (i : nat) (path : string) :
  render_state {| state_index := i; starts_path := Some path;
                  awaits_not_busy := true; advances_to := Some (i + 1) |}
  = busy_case i path.
Proof. reflexivity. Qed.

(** ** Properties of the generated text *)


(** C2. In the construction statements the start pose of segment [i > 0] is
    the end pose identifier of segment [i - 1], and the start pose of
    segment [0] is the identifier that the start pose declaration declares
    for [startPoint]. *)
Theorem chaining_invariant (json_data : value) (class_name : string) :
  is_path_document json_data = true ->
  let segs := doc_lines json_data in
  exists fr,
    convert_fragments json_data = Ok fr /\
    convert json_data class_name = Ok (assemble class_name fr) /\
    start_pose_line fr = start_pose_text (doc_start json_data) /\
    List.length (build_lines fr) = List.length segs /\
    (forall seg,
        nth_error segs 0 = Some seg ->
        nth_error (build_lines fr) 0 = Some (statement_text start_pose_name seg) /\
        build_path start_pose_name seg
        = Ok (statement_text start_pose_name seg, end_pose_id seg)) /\
    (forall i before seg,
        nth_error segs i = Some before ->
        nth_error segs (S i) = Some seg ->
        nth_error (poses fr) i = Some (segment_pose_text before) /\
        nth_error (build_lines fr) (S i)
        = Some (statement_text (end_pose_id before) seg) /\
        build_path (end_pose_id before) seg
        = Ok (statement_text (end_pose_id before) seg, end_pose_id seg)).
Proof.
  intros H segs.
  destruct (is_path_document_inv _ H) as (_ & _ & _ & Hsegs).
  exists (document_fragments json_data).
  split; [now apply convert_fragments_ok|].
  split; [now apply convert_ok|].
  split; [reflexivity|].
  split; [apply statements_length|].
  assert (Hseg : forall i seg, nth_error segs i = Some seg -> is_segment seg = true).
  { intros i seg Hi. apply nth_error_In in Hi.
    rewrite forallb_forall in Hsegs. now apply Hsegs. }
  split.
  - intros seg H0. split.
    + apply (build_lines_nth json_data 0 seg H0).
    + apply build_path_ok. now apply (Hseg 0%nat).
  - intros i before seg Hb Hs. split; [now apply poses_nth|]. split.
    + rewrite (build_lines_nth json_data (S i) seg Hs).
      unfold start_pose_of. fold segs. now rewrite Hb.
    + apply build_path_ok. now apply (Hseg (S i)).
Qed.

Lemma segments_well_formed (json_data : value) (i : nat) (seg : value) :
  is_path_document json_data = true ->
  nth_error (doc_lines json_data) i = Some seg -> is_segment seg = true.
Proof.
  intros H Hi. destruct (is_path_document_inv _ H) as (_ & _ & _ & Hsegs).
  apply nth_error_In in Hi. rewrite forallb_forall in Hsegs. now apply Hsegs.
Qed.

Lemma constant_mode_true (seg : value) :
  field "heading" (seg_end_point seg) = Some (VStr "constant") ->
  constant_mode seg = true.
Proof.
  intros H. unfold constant_mode. now rewrite H.
Qed.

Lemma constant_mode_false (seg : value) :
  field "heading" (seg_end_point seg) <> Some (VStr "constant") ->
  constant_mode seg = false.
Proof.
  intros H. unfold constant_mode.
  destruct (field "heading" (seg_end_point seg)) as [[]|]; try reflexivity.
  destruct (String.eqb_spec s "constant"); [subst; congruence | reflexivity].
Qed.

(** C3, as the code has it.  No document is rejected for the number of its
    control points: a segment without control point yields a straight line,
    and a segment with one control point or more yields a curve through the
    first control point, whatever follows it in the list. *)
Theorem control_points_after_first_ignored (json_data : value) (class_name : string) :
  is_path_document json_data = true ->
  let segs := doc_lines json_data in
  exists fr,
    convert_fragments json_data = Ok fr /\
    convert json_data class_name = Ok (assemble class_name fr) /\
    forall i seg,
      nth_error segs i = Some seg ->
      let prev_pose := start_pose_of segs i in
      (seg_control_points seg = [] ->
       nth_error (build_lines fr) i
       = Some (path_id seg ++ " = follower.pathBuilder()" ++ nl
               ++ bezier_line prev_pose (end_pose_id seg)
               ++ heading_text prev_pose seg ++ "        .build();")) /\
      (forall cp others,
          seg_control_points seg = cp :: others ->
          nth_error (build_lines fr) i
          = Some (path_id seg ++ " = follower.pathBuilder()" ++ nl
                  ++ bezier_curve prev_pose (canon (coordinate "x" cp))
                                  (canon (coordinate "y" cp)) (end_pose_id seg)
                  ++ heading_text prev_pose seg ++ "        .build();")).
Proof.
  intros H segs.
  exists (document_fragments json_data).
  split; [now apply convert_fragments_ok|].
  split; [now apply convert_ok|].
  intros i seg Hi prev_pose.
  rewrite (build_lines_nth json_data i seg Hi). fold segs. fold prev_pose.
  unfold statement_text, path_text.
  split.
  - intros ->. reflexivity.
  - intros cp others ->. reflexivity.
Qed.

(** C6. The heading of a segment's end pose is the end point's [degrees]
    when present, else its [endDeg] when present, else [0]. *)
Theorem end_heading_resolution (json_data : value) (class_name : string) :
  is_path_document json_data = true ->
  let segs := doc_lines json_data in
  exists fr,
    convert_fragments json_data = Ok fr /\
    convert json_data class_name = Ok (assemble class_name fr) /\
    forall i seg,
      nth_error segs i = Some seg ->
      let ep := seg_end_point seg in
      exists deg,
        nth_error (poses fr) i
        = Some ("private final Pose " ++ end_pose_id seg ++ " = new Pose("
                ++ canon (coordinate "x" ep) ++ ", " ++ canon (coordinate "y" ep)
                ++ ", Math.toRadians(" ++ canon deg ++ ")); // " ++ seg_name seg) /\
        f deg = Ok (canon deg) /\
        (forall d, field "degrees" ep = Some d -> deg = d) /\
        (forall d, field "degrees" ep = None -> field "endDeg" ep = Some d -> deg = d) /\
        (field "degrees" ep = None -> field "endDeg" ep = None -> deg = VInt 0).
Proof.
  intros H segs.
  exists (document_fragments json_data).
  split; [now apply convert_fragments_ok|].
  split; [now apply convert_ok|].
  intros i seg Hi ep. exists (end_heading ep).
  split; [now rewrite (poses_nth json_data i seg Hi)|].
  split.
  - apply f_number.
    pose proof (segments_well_formed _ _ _ H Hi) as Hs.
    apply is_segment_inv in Hs. destruct Hs as (_ & _ & _ & Hp & _).
    now apply is_point_inv in Hp.
  - unfold end_heading. repeat split.
    + intros d ->. reflexivity.
    + intros d -> ->. reflexivity.
    + intros -> ->. reflexivity.
Qed.

(** C7. A segment whose end point has [heading] equal to ["constant"] gets a
    constant-heading directive that names its end pose only; with any other
    [heading], or none, it gets a linear-heading directive that names the
    previous pose and its end pose. *)
Theorem heading_mode_selection (json_data : value) (class_name : string) :
  is_path_document json_data = true ->
  let segs := doc_lines json_data in
  exists fr,
    convert_fragments json_data = Ok fr /\
    convert json_data class_name = Ok (assemble class_name fr) /\
    forall i seg,
      nth_error segs i = Some seg ->
      let prev_pose := start_pose_of segs i in
      let end_pose := end_pose_id seg in
      exists directive,
        nth_error (build_lines fr) i
        = Some (path_id seg ++ " = follower.pathBuilder()" ++ nl
                ++ path_text prev_pose seg ++ directive ++ "        .build();") /\
        (field "heading" (seg_end_point seg) = Some (VStr "constant") ->
         directive = "        .setConstantHeadingInterpolation(" ++ end_pose
                     ++ ".getHeading())" ++ nl) /\
        (field "heading" (seg_end_point seg) <> Some (VStr "constant") ->
         directive = "        .setLinearHeadingInterpolation(" ++ prev_pose
                     ++ ".getHeading(), " ++ end_pose ++ ".getHeading())" ++ nl).
Proof.
  intros H segs.
  exists (document_fragments json_data).
  split; [now apply convert_fragments_ok|].
  split; [now apply convert_ok|].
  intros i seg Hi prev_pose end_pose.
  exists (heading_text prev_pose seg).
  split; [now rewrite (build_lines_nth json_data i seg Hi)|].
  unfold heading_text. split; intros Hh.
  - now rewrite (constant_mode_true _ Hh).
  - now rewrite (constant_mode_false _ Hh).
Qed.

(** C9, as the code has it.  The heading of the start pose is the start
    point's [startDeg] when present, else [0]; its [degrees] and [endDeg]
    fields are not read. *)
Theorem start_heading_resolution (json_data : value) (class_name : string) :
  is_path_document json_data = true ->
  let start := doc_start json_data in
  exists fr deg,
    convert_fragments json_data = Ok fr /\
    convert json_data class_name = Ok (assemble class_name fr) /\
    start_pose_line fr
    = "private final Pose startPose = new Pose(" ++ canon (coordinate "x" start)
      ++ ", " ++ canon (coordinate "y" start) ++ ", Math.toRadians(" ++ canon deg
      ++ ")); // Start position" /\
    f deg = Ok (canon deg) /\
    (forall d, field "startDeg" start = Some d -> deg = d) /\
    (field "startDeg" start = None -> deg = VInt 0).
Proof.
  intros H start.
  exists (document_fragments json_data), (start_heading start).
  split; [now apply convert_fragments_ok|].
  split; [now apply convert_ok|].
  split; [reflexivity|].
  split.
  - apply f_number. destruct (is_path_document_inv _ H) as (_ & _ & Hp & _).
    now apply is_point_inv in Hp.
  - unfold start_heading. split.
    + intros d ->. reflexivity.
    + intros ->. reflexivity.
Qed.

Lemma f_renders (v : value) :
  (renders v = true -> exists text, f v = Ok text) /\
  (renders v = false -> f v = Raise OverflowError).
Proof.
  destruct v as [|b|z|x|t|l|d]; cbn [renders]; split; intros H;
    try discriminate; try (cbn [f]; eauto; fail).
  - destruct b; vm_compute; eauto.
  - exists (canon (VInt z)). now apply f_number.
  - unfold f, is_number, float_of_int in *.
    destruct (binary_normalize 53 1024 z 0 false); cbn [bind]; try discriminate.
    reflexivity.
Qed.

(** C10, as the code has it.  A document whose lines list is empty and whose
    start point has [x] and [y] converts without error, to no segment pose,
    no construction statement and a state machine made of the terminal state
    [0] alone, provided none of [x], [y] and the start heading is an integer
    beyond the range of a double; when one of them is, conversion raises
    [OverflowError]. *)
Theorem empty_document (json_data start x y : value) (class_name : string) :
  field "startPoint" json_data = Some start ->
  field "x" start = Some x ->
  field "y" start = Some y ->
  field "lines" json_data = Some (VList []) ->
  (renders x && renders y && renders (start_heading start) = true ->
   exists fr sx sy sd,
     f x = Ok sx /\ f y = Ok sy /\ f (start_heading start) = Ok sd /\
     convert_fragments json_data = Ok fr /\
     convert json_data class_name = Ok (assemble class_name fr) /\
     start_pose_line fr = pose_text start_pose_name sx sy sd "Start position" /\
     poses fr = [] /\
     build_lines fr = [] /\
     update_lines fr = [final_case 0] /\
     final_case 0
     = "case 0:" ++ nl ++ "              // Done" ++ nl ++ "              break;" /\
     state_table (map path_id (doc_lines json_data))
     = [{| state_index := 0; starts_path := None;
           awaits_not_busy := false; advances_to := None |}]) /\
  (renders x && renders y && renders (start_heading start) = false ->
   convert json_data class_name = Raise OverflowError).
Proof.
  intros Hs Hx Hy Hl.
  destruct (field_dict _ _ _ Hx) as (startd & ->).
  assert (Hlines : doc_lines json_data = []).
  { unfold doc_lines. now rewrite Hl. }
  unfold convert, convert_fragments, start_pose_decl.
  rewrite (getitem_field _ _ _ Hs), (getitem_field _ _ _ Hl). cbn [bind].
  rewrite (getitem_field _ _ _ Hx), (getitem_field _ _ _ Hy).
  rewrite get_dict. fold (start_heading (VDict startd)). cbn [bind].
  destruct (f_renders x) as [Hxt Hxf].
  destruct (f_renders y) as [Hyt Hyf].
  destruct (f_renders (start_heading (VDict startd))) as [Hdt Hdf].
  split; intros H.
  - apply andb_prop in H. destruct H as [H Hd].
    apply andb_prop in H. destruct H as [Hrx Hry].
    destruct (Hxt Hrx) as (sx & Hsx). destruct (Hyt Hry) as (sy & Hsy).
    destruct (Hdt Hd) as (sd & Hsd).
    rewrite Hsx, Hsy, Hsd. cbn [bind iter mapM build_loop update_loop].
    eexists. exists sx, sy, sd.
    repeat (split; [reflexivity|]). now rewrite Hlines.
  - destruct (renders x).
    + destruct (Hxt eq_refl) as (sx & Hsx). rewrite Hsx. cbn [bind].
      destruct (renders y).
      * destruct (Hyt eq_refl) as (sy & Hsy). rewrite Hsy. cbn [bind].
        cbn [andb] in H. now rewrite (Hdf H).
      * now rewrite (Hyf eq_refl).
    + now rewrite (Hxf eq_refl).
Qed.

(** ** Splitting a name *)

Lemma pieces_nonempty (parts seps : list string) : pieces parts seps -> parts <> [].
Proof. intros H; inversion H; discriminate. Qed.

Lemma no_sep_empty : no_sep EmptyString.
Proof. intros c []. Qed.

Lemma no_sep_cons (c : ascii) (s : string) :
  is_sep c = false -> no_sep s -> no_sep (String c s).
Proof.
  intros Hc Hs x [<- | Hx]; [exact Hc | now apply Hs].
Qed.

Lemma pieces_extend (c : ascii) (t : string) (ts seps : list string) :
  is_sep c = false -> pieces (t :: ts) seps -> pieces (String c t :: ts) seps.
Proof.
  intros Hc H. inversion H; subst.
  - apply pieces_last. now apply no_sep_cons.
  - apply pieces_cons; auto. now apply no_sep_cons.
Qed.

Lemma interleave_extend (c : ascii) (t : string) (ts seps : list string) :
  interleave (String c t :: ts) seps = String c (interleave (t :: ts) seps).
Proof. destruct seps; reflexivity. Qed.

Lemma interleave_cons (p q sp : string) (ps sps : list string) :
  interleave (p :: q :: ps) (sp :: sps) = p ++ sp ++ interleave (q :: ps) sps.
Proof. reflexivity. Qed.

Lemma re_split_from_pieces (s : string) :
  (exists seps,
      pieces (re_split_from false s) seps /\
      interleave (re_split_from false s) seps = s) /\
  (exists lead seps,
      (forall c, In c (list_ascii_of_string lead) -> is_sep c = true) /\
      pieces (re_split_from true s) seps /\
      lead ++ interleave (re_split_from true s) seps = s /\
      (forall q ps, re_split_from true s = q :: ps -> q = EmptyString -> ps = [])).
Proof.
  induction s as [|c s' [IHf IHt]].
  - split.
    + exists []. split; [apply pieces_last, no_sep_empty | reflexivity].
    + exists EmptyString, [].
      split; [intros c []|]. split; [apply pieces_last, no_sep_empty|].
      split; [reflexivity|].
      intros q ps H _. simpl in H. now injection H.
  - cbn [re_split_from]. destruct (is_sep c) eqn:Hc.
    + destruct IHt as (lead & seps & Hlead & Hp & Heq & Hq).
      assert (Hrun : forall x, In x (list_ascii_of_string (String c lead)) ->
                               is_sep x = true).
      { intros x [<- | Hx]; [exact Hc | now apply Hlead]. }
      split.
      * destruct (re_split_from true s') as [|q ps] eqn:Hs.
        { now apply pieces_nonempty in Hp. }
        exists (String c lead :: seps). split.
        -- apply pieces_cons; auto.
           ++ apply no_sep_empty.
           ++ split; [discriminate | exact Hrun].
           ++ intros Hqe. now apply (Hq q ps).
        -- rewrite interleave_cons. cbn [append]. now rewrite Heq.
      * exists (String c lead), seps.
        split; [exact Hrun|]. split; [exact Hp|]. split; [|exact Hq].
        cbn [append]. now rewrite Heq.
    + destruct IHf as (seps & Hp & Heq).
      destruct (re_split_from false s') as [|t ts] eqn:Hs.
      { now apply pieces_nonempty in Hp. }
      assert (Hp' : pieces (String c t :: ts) seps) by now apply pieces_extend.
      assert (Heq' : interleave (String c t :: ts) seps = String c s').
      { rewrite interleave_extend. now rewrite Heq. }
      split.
      * exists seps. auto.
      * exists EmptyString, seps.
        split; [intros x []|]. split; [exact Hp'|]. split; [exact Heq'|].
        intros q ps Hqe Hq. injection Hqe as <- _. discriminate.
Qed.

Lemma re_split_single (s : string) :
  no_sep s -> forall in_sep, re_split_from in_sep s = [s].
Proof.
  induction s as [|c s' IH]; intros H in_sep; [reflexivity|].
  cbn [re_split_from]. rewrite (H c (or_introl eq_refl)).
  rewrite (IH (fun x Hx => H x (or_intror Hx))). reflexivity.
Qed.

Lemma is_space_sep (c : ascii) : is_space c = true -> is_sep c = true.
Proof. intros H. unfold is_sep. rewrite H. apply orb_true_r. Qed.

Lemma re_split_blank_tail (s : string) :
  blank s = true -> re_split_from true s = [EmptyString].
Proof.
  unfold blank. induction s as [|c s' IH]; intros H; [reflexivity|].
  simpl in H. apply andb_prop in H. destruct H as [Hc Hs].
  cbn [re_split_from]. rewrite (is_space_sep _ Hc). now apply IH.
Qed.

Lemma camel_case_blank (s : string) : blank s = true -> camel_case s = EmptyString.
Proof.
  destruct s as [|c s']; intros H; [reflexivity|].
  unfold camel_case, re_split. cbn [re_split_from].
  unfold blank in H. simpl in H. apply andb_prop in H. destruct H as [Hc Hs].
  rewrite (is_space_sep _ Hc). rewrite (re_split_blank_tail s' Hs). reflexivity.
Qed.

(** C4. The identifier of a name over the ASCII range: the name is split on
    the runs of underscores and whitespace; the first piece is lower-cased;
    each later piece is capitalized, its first character upper-cased and the
    others lower-cased; and the results are concatenated. *)
Theorem identifier_derivation :
  (forall name,
      is_ascii name = true ->
      exists runs,
        pieces (re_split name) runs /\ interleave (re_split name) runs = name) /\
  (forall name,
      is_ascii name = true ->
      camel_case name
      = lower (hd EmptyString (re_split name))
        ++ String.concat EmptyString
             (map (fun piece =>
                     match piece with
                     | EmptyString => EmptyString
                     | String c rest => String (upper_char c) (lower rest)
                     end)
                  (tl (re_split name)))) /\
  (forall first c rest,
      is_ascii (first ++ String "_" (String c rest)) = true ->
      no_sep first -> no_sep (String c rest) ->
      camel_case (first ++ String "_" (String c rest))
      = lower first ++ String (upper_char c) (lower rest)) /\
  lower "ABCDEFGHIJKLMNOPQRSTUVWXYZ_ 019az" = "abcdefghijklmnopqrstuvwxyz_ 019az" /\
  capitalize "abcdefghijklmnopqrstuvwxyz" = "Abcdefghijklmnopqrstuvwxyz" /\
  capitalize "zEBRA_9" = "Zebra_9" /\
  map upper_char (list_ascii_of_string "abcdefghijklmnopqrstuvwxyz_ 019AZ")
  = list_ascii_of_string "ABCDEFGHIJKLMNOPQRSTUVWXYZ_ 019AZ" /\
  camel_case "Prep_Artifacts_1" = "prepArtifacts1" /\
  camel_case "go" = "go" /\
  camel_case "go back" = "goBack" /\
  camel_case "hello WORLD_fooBar" = "helloWorldFoobar" /\
  camel_case "a__b _c_" = "aBC" /\
  (forall name, is_ascii name = true -> no_sep name -> camel_case name = lower name).
Proof.
  split; [intros name _; apply (re_split_from_pieces name)|].
  split.
  { intros name _. reflexivity. }
  split.
  { intros first c rest _ Hf Hr. unfold camel_case, re_split.
    assert (Hsplit : forall a, no_sep a ->
              re_split_from false (a ++ String "_" (String c rest))
              = [a; String c rest]).
    { induction a as [|x a IH]; intros Ha.
      - cbn [append].
        change (re_split_from false (String "_" (String c rest)))
          with (EmptyString :: re_split_from true (String c rest)).
        now rewrite (re_split_single _ Hr true).
      - cbn [append re_split_from]. rewrite (Ha x (or_introl eq_refl)).
        now rewrite (IH (fun y Hy => Ha y (or_intror Hy))). }
    rewrite (Hsplit first Hf). cbn [hd tl map String.concat capitalize].
    reflexivity. }
  repeat (split; [reflexivity|]).
  intros name _ H. unfold camel_case, re_split.
  rewrite (re_split_single name H). cbn [hd tl map String.concat].
  apply append_nil_r.
Qed.

(** C8, as the code has it.  Identifier derivation returns on every string;
    a segment name that is empty or made of whitespace only has the empty
    identifier, and the document is converted all the same, with [Pose] and
    [Path] as the names of the segment's pose and path. *)
Theorem blank_names_accepted (json_data : value) (class_name : string) :
  is_path_document json_data = true ->
  let segs := doc_lines json_data in
  (forall name, camel_case_of (VStr name) = Ok (camel_case name)) /\
  exists fr,
    convert_fragments json_data = Ok fr /\
    convert json_data class_name = Ok (assemble class_name fr) /\
    forall i seg,
      nth_error segs i = Some seg ->
      blank (seg_name seg) = true ->
      camel_case (seg_name seg) = EmptyString /\
      end_pose_id seg = "Pose" /\
      path_id seg = "Path" /\
      nth_error (poses fr) i = Some (segment_pose_text seg).
Proof.
  intros H segs. split; [reflexivity|].
  exists (document_fragments json_data).
  split; [now apply convert_fragments_ok|].
  split; [now apply convert_ok|].
  intros i seg Hi Hb.
  pose proof (camel_case_blank _ Hb) as Hc.
  unfold end_pose_id, path_id, identifier. rewrite Hc.
  repeat split. now apply poses_nth.
Qed.

(** ** Rounding to thousandths *)




(** ** More on identifiers *)

Lemma lower_char_sep (c : ascii) : is_sep (lower_char c) = is_sep c.
Proof. destruct c as [[] [] [] [] [] [] [] []]; reflexivity. Qed.

Lemma upper_char_sep (c : ascii) : is_sep (upper_char c) = is_sep c.
Proof. destruct c as [[] [] [] [] [] [] [] []]; reflexivity. Qed.

Lemma lower_char_idem (c : ascii) : lower_char (lower_char c) = lower_char c.
Proof. destruct c as [[] [] [] [] [] [] [] []]; reflexivity. Qed.

Lemma upper_lower_char (c : ascii) : upper_char (lower_char c) = upper_char c.
Proof. destruct c as [[] [] [] [] [] [] [] []]; reflexivity. Qed.

Lemma lower_upper_char (c : ascii) : lower_char (upper_char c) = lower_char c.
Proof. destruct c as [[] [] [] [] [] [] [] []]; reflexivity. Qed.

Lemma lower_idem (s : string) : lower (lower s) = lower s.
Proof.
  induction s as [|c s IH]; simpl; [reflexivity|].
  now rewrite lower_char_idem, IH.
Qed.

Lemma lower_append (a b : string) : lower (a ++ b) = lower a ++ lower b.
Proof.
  induction a as [|c a IH]; simpl; [reflexivity | now rewrite IH].
Qed.

Lemma capitalize_lower (s : string) : capitalize (lower s) = capitalize s.
Proof.
  destruct s as [|c s]; simpl; [reflexivity|].
  now rewrite upper_lower_char, lower_idem.
Qed.

Lemma lower_capitalize (s : string) : lower (capitalize s) = lower s.
Proof.
  destruct s as [|c s]; simpl; [reflexivity|].
  now rewrite lower_upper_char, lower_idem.
Qed.

Lemma concat_empty_cons (x : string) (l : list string) :
  String.concat EmptyString (x :: l) = x ++ String.concat EmptyString l.
Proof.
  destruct l; simpl; [now rewrite append_nil_r | reflexivity].
Qed.

Lemma in_append (c : ascii) (a b : string) :
  In c (list_ascii_of_string (a ++ b)) ->
  In c (list_ascii_of_string a) \/ In c (list_ascii_of_string b).
Proof.
  induction a as [|x a IH]; simpl; [auto|].
  intros [H | H]; [auto|]. destruct (IH H); auto.
Qed.

Lemma no_sep_lower (s : string) : no_sep s -> no_sep (lower s).
Proof.
  induction s as [|x s IH]; intros H c; simpl; [intros []|].
  intros [<- | Hc].
  - rewrite lower_char_sep. apply H. now left.
  - apply IH; [|exact Hc]. intros y Hy. apply H. now right.
Qed.

Lemma no_sep_capitalize (s : string) : no_sep s -> no_sep (capitalize s).
Proof.
  destruct s as [|x s]; intros H c; simpl; [intros []|].
  intros [<- | Hc].
  - rewrite upper_char_sep. apply H. now left.
  - apply (no_sep_lower s); [|exact Hc]. intros y Hy. apply H. now right.
Qed.

Lemma pieces_no_sep (parts seps : list string) :
  pieces parts seps -> Forall no_sep parts.
Proof.
  induction 1; constructor; auto.
Qed.

Lemma no_sep_concat (l : list string) :
  Forall no_sep l -> no_sep (String.concat EmptyString l).
Proof.
  induction 1 as [|x l Hx Hl IH]; [intros c []|].
  rewrite concat_empty_cons. intros c Hc.
  destruct (in_append _ _ _ Hc); [now apply Hx | now apply IH].
Qed.

(** The identifier of a name holds no underscore and no whitespace. *)
Theorem camel_case_no_separator (name : string) (c : ascii) :
  In c (list_ascii_of_string (camel_case name)) -> is_sep c = false.
Proof.
  destruct (re_split_from_pieces name) as [(seps & Hp & _) _].
  apply pieces_no_sep in Hp. unfold camel_case, re_split.
  destruct (re_split_from false name) as [|p ps]; cbn [hd tl].
  - intros [].
  - inversion Hp as [|? ? Hhead Htail]; subst. intros Hc.
    destruct (in_append _ _ _ Hc) as [H | H].
    + now apply (no_sep_lower p Hhead).
    + revert H. apply no_sep_concat.
      clear -Htail. induction Htail; constructor; auto.
      now apply no_sep_capitalize.
Qed.

Lemma re_split_from_lower (s : string) :
  forall in_sep, re_split_from in_sep (lower s) = map lower (re_split_from in_sep s).
Proof.
  induction s as [|c s IH]; intros in_sep; [reflexivity|].
  cbn [lower re_split_from]. rewrite lower_char_sep.
  destruct (is_sep c).
  - destruct in_sep; [apply IH|]. cbn [map]. now rewrite IH.
  - rewrite IH. destruct (re_split_from false s); reflexivity.
Qed.

(** The identifier of a name over the ASCII range does not depend on the
    case of the name: such names that differ by case only get the same
    identifier. *)
Theorem camel_case_ignores_case (name : string) :
  is_ascii name = true ->
  camel_case (lower name) = camel_case name.
Proof.
  intros _. unfold camel_case, re_split. rewrite re_split_from_lower.
  destruct (re_split_from false name) as [|p ps]; cbn [hd tl map]; [reflexivity|].
  rewrite lower_idem, map_map. f_equal. f_equal.
  apply map_ext. intros a. apply capitalize_lower.
Qed.

Lemma concat_pieces_strip (s : string) :
  forall in_sep, String.concat EmptyString (re_split_from in_sep s) = strip_seps s.
Proof.
  induction s as [|c s IH]; intros in_sep; [reflexivity|].
  cbn [re_split_from strip_seps]. destruct (is_sep c).
  - destruct in_sep; [apply IH|]. rewrite concat_empty_cons. apply IH.
  - specialize (IH false). destruct (re_split_from false s) as [|t ts].
    + simpl in IH. now rewrite <- IH.
    + rewrite concat_empty_cons in *. cbn [append]. now rewrite IH.
Qed.

Lemma lower_concat_capitalize (l : list string) :
  lower (String.concat EmptyString (map capitalize l))
  = lower (String.concat EmptyString l).
Proof.
  induction l as [|x l IH]; [reflexivity|].
  cbn [map]. rewrite !concat_empty_cons, !lower_append, IH.
  now rewrite lower_capitalize.
Qed.

(** The identifier of a name over the ASCII range is the name without its
    separators, up to the case of the letters: no other character is
    dropped, added or moved. *)
Theorem camel_case_keeps_characters (name : string) :
  is_ascii name = true ->
  lower (camel_case name) = lower (strip_seps name).
Proof.
  intros _. rewrite <- (concat_pieces_strip name false).
  unfold camel_case, re_split.
  destruct (re_split_from false name) as [|p ps]; cbn [hd tl]; [reflexivity|].
  rewrite concat_empty_cons, !lower_append, lower_idem.
  now rewrite lower_concat_capitalize.
Qed.

Lemma re_split_from_sep_kind (a b : string) (c d : ascii) :
  is_sep c = true -> is_sep d = true ->
  forall in_sep,
    re_split_from in_sep (a ++ String c b) = re_split_from in_sep (a ++ String d b).
Proof.
  intros Hc Hd. induction a as [|x a IH]; intros in_sep.
  - cbn [append re_split_from]. now rewrite Hc, Hd.
  - cbn [append re_split_from]. destruct (is_sep x).
    + destruct in_sep; now rewrite IH.
    + now rewrite IH.
Qed.

Lemma re_split_from_sep_twice (a b : string) (c d : ascii) :
  is_sep c = true -> is_sep d = true ->
  forall in_sep,
    re_split_from in_sep (a ++ String c (String d b))
    = re_split_from in_sep (a ++ String c b).
Proof.
  intros Hc Hd. induction a as [|x a IH]; intros in_sep.
  - cbn [append re_split_from]. now rewrite Hc, Hd.
  - cbn [append re_split_from]. destruct (is_sep x).
    + destruct in_sep; now rewrite IH.
    + now rewrite IH.
Qed.

(** Neither the kind nor the length of a run of separators matters: a
    separator may be replaced by another one, or doubled, without changing
    the identifier. *)
Theorem camel_case_ignores_run (a b : string) (c d : ascii) :
  is_sep c = true -> is_sep d = true ->
  camel_case (a ++ String c b) = camel_case (a ++ String d b) /\
  camel_case (a ++ String c (String d b)) = camel_case (a ++ String c b).
Proof.
  intros Hc Hd. unfold camel_case, re_split. split.
  - now rewrite (re_split_from_sep_kind a b c d Hc Hd).
  - now rewrite (re_split_from_sep_twice a b c d Hc Hd).
Qed.

(** ** More on the numeric text *)

(** [f] raises on nothing but an integer beyond the range of a double, and
    then it raises [OverflowError]. *)
Theorem f_raises_only_on_large_int (v : value) :
  (forall e,
      f v = Raise e ->
      e = OverflowError /\ exists z, v = VInt z /\ is_number (VInt z) = false) /\
  (forall z, v = VInt z -> is_number v = false -> f v = Raise OverflowError).
Proof.
  split.
  - intros e. destruct v as [|b|z|x|t|l|d]; try (cbn [f]; discriminate).
    + destruct b; vm_compute; discriminate.
    + unfold f, float_of_int.
      destruct (binary_normalize 53 1024 z 0 false) eqn:Hb; cbn [bind];
        try discriminate.
      intros H. injection H as <-. split; [reflexivity|].
      exists z. split; [reflexivity|].
      unfold is_number, float_of_int. now rewrite Hb.
  - intros z -> . unfold f, is_number, float_of_int.
    destruct (binary_normalize 53 1024 z 0 false); cbn [bind]; try discriminate.
    reflexivity.
Qed.

Lemma rstrip_removes (c : ascii) (s : string) :
  exists k, s = rstrip c s ++ replicate k c.
Proof.
  induction s as [|a s [k IH]].
  - exists 0%nat. reflexivity.
  - cbn [rstrip]. destruct (rstrip c s) as [|b r].
    + destruct (Ascii.eqb_spec a c) as [-> | Hne].
      * exists (S k). cbn [append replicate]. now rewrite IH at 1.
      * exists k. cbn [append]. now rewrite IH at 1.
    + exists k. cbn [append] in *. now rewrite IH at 1.
Qed.

Lemma append_one_nonempty (t : string) (c : ascii) :
  t ++ String c EmptyString <> EmptyString.
Proof. destruct t; discriminate. Qed.

Lemma rstrip_no_trailing (c : ascii) (s : string) :
  forall t, rstrip c s <> t ++ String c EmptyString.
Proof.
  induction s as [|a s IH]; intros t.
  - simpl. intros H. symmetry in H. now apply append_one_nonempty in H.
  - cbn [rstrip]. destruct (rstrip c s) as [|b r] eqn:Hr.
    + destruct (Ascii.eqb_spec a c) as [-> | Hne].
      * intros H. symmetry in H. now apply append_one_nonempty in H.
      * destruct t as [|x t]; cbn [append]; intros H.
        -- injection H as ->. now apply Hne.
        -- injection H as _ H. symmetry in H. now apply append_one_nonempty in H.
    + destruct t as [|x t]; cbn [append]; intros H; [discriminate|].
      injection H as _ H. now apply (IH t).
Qed.

(** The text of a number is its three-decimal text with nothing but zeros,
    and then decimal points, taken off its end; it never ends with a decimal
    point. *)
Theorem canonical_text_strips_only (v : value) :
  is_number v = true ->
  exists out j k,
    f v = Ok out /\
    format_3f (float_of v) = out ++ replicate j "." ++ replicate k "0" /\
    (forall t, out <> t ++ ".").
Proof.
  intros H.
  destruct (rstrip_removes "0" (format_3f (float_of v))) as [k Hk].
  destruct (rstrip_removes "." (rstrip "0" (format_3f (float_of v)))) as [j Hj].
  exists (canon v), j, k.
  split; [now apply f_number|]. split.
  - unfold canon. rewrite <- append_assoc, <- Hj. exact Hk.
  - unfold canon. apply rstrip_no_trailing.
Qed.

(** A negative float of magnitude at most half a thousandth keeps its sign:
    it is written [-0]. *)
Theorem small_negative_is_minus_zero (m : positive) (e : Z) :
  (e < 0)%Z ->
  (2 * (Zpos m * 1000) <= 2 ^ (- e))%Z ->
  f (VFloat (S754_finite true m e)) = Ok "-0".
Proof.
  intros He Hsmall.
  assert (Hz : thousandths m e = 0%Z).
  { unfold thousandths. destruct (Z.leb_spec 0 e); [lia|].
    unfold round_half_even.
    assert (Hlt : (0 <= Zpos m * 1000 < 2 ^ (- e))%Z) by lia.
    rewrite (Z.div_small _ _ Hlt), (Z.mod_small _ _ Hlt).
    destruct (Z.compare_spec (2 * (Zpos m * 1000)) (2 ^ (- e))); [reflexivity..|lia]. }
  cbn [f format_3f]. rewrite Hz. reflexivity.
Qed.

(** ** Failures and the shape of accepted input *)

Lemma bind_ok_inv {A B : Type} (m : result A) (k : A -> result B) (b : B) :
  bind m k = Ok b -> exists a, m = Ok a /\ k a = Ok b.
Proof.
  destruct m as [a|e]; simpl; [eauto | discriminate].
Qed.

Ltac bind_inv H x Hx :=
  apply bind_ok_inv in H; destruct H as (x & Hx & H).

Lemma getitem_ok_inv (v x : value) (k : string) :
  getitem v k = Ok x -> exists d, v = VDict d /\ lookup k d = Some x.
Proof.
  destruct v; simpl; try discriminate.
  destruct (lookup k d) eqn:Hl; [|discriminate].
  intros H. injection H as <-. eauto.
Qed.

Lemma get_ok_inv (v x default : value) (k : string) :
  get v k default = Ok x -> exists d, v = VDict d.
Proof.
  destruct v; simpl; try discriminate. eauto.
Qed.

Lemma camel_case_of_ok_inv (v : value) (name : string) :
  camel_case_of v = Ok name -> exists s, v = VStr s.
Proof.
  destruct v; simpl; try discriminate. eauto.
Qed.

Lemma mapM_length {A B : Type} (g : A -> result B) (l : list A) :
  forall bs, mapM g l = Ok bs -> List.length bs = List.length l.
Proof.
  induction l as [|a l IH]; intros bs H; simpl in H.
  - now injection H as <-.
  - bind_inv H b Hb. bind_inv H bs' Hbs. injection H as <-.
    simpl. now rewrite (IH bs' Hbs).
Qed.

Lemma mapM_forall {A B : Type} (g : A -> result B) (l : list A) :
  forall bs, mapM g l = Ok bs -> Forall (fun a => exists b, g a = Ok b) l.
Proof.
  induction l as [|a l IH]; intros bs H; simpl in H; [constructor|].
  bind_inv H b Hb. bind_inv H bs' Hbs. constructor; eauto.
Qed.

Lemma build_loop_length (l : list value) :
  forall prev_pose bs, build_loop prev_pose l = Ok bs -> List.length bs = List.length l.
Proof.
  induction l as [|a l IH]; intros prev_pose bs H; simpl in H.
  - now injection H as <-.
  - bind_inv H r Hr. bind_inv H bs' Hbs. injection H as <-.
    simpl. now rewrite (IH _ bs' Hbs).
Qed.

Lemma build_loop_forall (l : list value) :
  forall prev_pose bs,
    build_loop prev_pose l = Ok bs ->
    Forall (fun a => exists p r, build_path p a = Ok r) l.
Proof.
  induction l as [|a l IH]; intros prev_pose bs H; simpl in H; [constructor|].
  bind_inv H r Hr. bind_inv H bs' Hbs. constructor; eauto.
Qed.

Lemma update_loop_length (l : list value) :
  forall i cs, update_loop i l = Ok cs -> List.length cs = List.length l.
Proof.
  induction l as [|a l IH]; intros i cs H; simpl in H.
  - now injection H as <-.
  - bind_inv H c Hc. bind_inv H cs' Hcs. injection H as <-.
    simpl. now rewrite (IH _ cs' Hcs).
Qed.

Lemma pose_decl_ok_inv (line : value) (text : string) :
  pose_decl line = Ok text ->
  exists name epd x y,
    field "name" line = Some (VStr name) /\
    field "endPoint" line = Some (VDict epd) /\
    lookup "x" epd = Some x /\ lookup "y" epd = Some y.
Proof.
  unfold pose_decl. intros H.
  bind_inv H n Hn. bind_inv H name Hname. bind_inv H ep Hep.
  bind_inv H deg Hdeg. bind_inv H sx Hsx. bind_inv H sy Hsy.
  bind_inv Hsx x Hx. bind_inv Hsy y Hy.
  destruct (getitem_ok_inv _ _ _ Hn) as (d & -> & Hln).
  destruct (camel_case_of_ok_inv _ _ Hname) as (nm & ->).
  destruct (getitem_ok_inv _ _ _ Hep) as (d' & Hd' & Hlep).
  injection Hd' as <-.
  destruct (getitem_ok_inv _ _ _ Hx) as (epd & -> & Hlx).
  destruct (getitem_ok_inv _ _ _ Hy) as (epd' & Hepd & Hly).
  injection Hepd as <-.
  exists nm, epd, x, y. simpl. auto.
Qed.

Lemma build_path_ok_inv (prev_pose : string) (line : value) (r : string * string) :
  build_path prev_pose line = Ok r ->
  exists cps k, field "controlPoints" line = Some cps /\ len cps = Ok k.
Proof.
  unfold build_path. intros H.
  bind_inv H n Hn. bind_inv H name Hname. bind_inv H ep Hep.
  bind_inv H heading Hh. bind_inv H cps Hcps. bind_inv H k Hk.
  destruct (getitem_ok_inv _ _ _ Hcps) as (d & -> & Hl).
  exists cps, k. simpl. auto.
Qed.

(** The three generated lists stay aligned on every input that [convert]
    accepts, well-formed or not: one pose and one statement per line, and
    one state more than there are lines, the last one being the final
    state. *)
Theorem fragments_aligned (json_data : value) (fr : fragments) :
  convert_fragments json_data = Ok fr ->
  exists lines items,
    field "lines" json_data = Some lines /\
    iter lines = Ok items /\
    List.length (poses fr) = List.length items /\
    List.length (build_lines fr) = List.length items /\
    List.length (update_lines fr) = S (List.length items) /\
    nth_error (update_lines fr) (List.length items)
    = Some (final_case (List.length items)).
Proof.
  unfold convert_fragments. intros H.
  bind_inv H start Hstart. bind_inv H lines Hlines. bind_inv H sline Hsline.
  bind_inv H items Hitems. bind_inv H ps Hps. bind_inv H names Hnames.
  cbv zeta in H. bind_inv H builds Hbuilds. bind_inv H cases Hcases.
  injection H as <-. cbn [poses build_lines update_lines].
  destruct (getitem_ok_inv _ _ _ Hlines) as (d & -> & Hl).
  exists lines, items.
  pose proof (update_loop_length _ _ _ Hcases) as Hlen.
  split; [exact Hl|]. split; [exact Hitems|].
  split; [now apply (mapM_length pose_decl)|].
  split; [now apply (build_loop_length _ start_pose_name)|].
  split.
  - rewrite length_app, Hlen. simpl. lia.
  - rewrite nth_error_app2 by lia. rewrite Hlen, Nat.sub_diag. reflexivity.
Qed.

(** What [convert] returning tells about its input: the document is a
    [dict] whose [startPoint] is a [dict] with [x] and [y], and every line
    has a string [name], an [endPoint] that is a [dict] with [x] and [y],
    and sized [controlPoints]. *)
Theorem accepted_document_shape (json_data : value) (class_name out : string) :
  convert json_data class_name = Ok out ->
  exists startd x y lines items,
    field "startPoint" json_data = Some (VDict startd) /\
    lookup "x" startd = Some x /\ lookup "y" startd = Some y /\
    field "lines" json_data = Some lines /\
    iter lines = Ok items /\
    Forall line_shape items.
Proof.
  unfold convert. intros H. bind_inv H fr Hfr. clear H.
  unfold convert_fragments in Hfr.
  bind_inv Hfr start Hstart. bind_inv Hfr lines Hlines. bind_inv Hfr sline Hsline.
  bind_inv Hfr items Hitems. bind_inv Hfr ps Hps. bind_inv Hfr names Hnames.
  cbv zeta in Hfr. bind_inv Hfr builds Hbuilds. clear Hfr.
  destruct (getitem_ok_inv _ _ _ Hstart) as (d & -> & Hls).
  destruct (getitem_ok_inv _ _ _ Hlines) as (d' & Hd' & Hll). injection Hd' as <-.
  unfold start_pose_decl in Hsline.
  bind_inv Hsline sx Hsx. bind_inv Hsline sy Hsy. clear Hsline.
  bind_inv Hsx x Hx. bind_inv Hsy y Hy.
  destruct (getitem_ok_inv _ _ _ Hx) as (startd & -> & Hlx).
  destruct (getitem_ok_inv _ _ _ Hy) as (startd' & Hsd & Hly). injection Hsd as <-.
  exists startd, x, y, lines, items.
  repeat (split; [assumption|]).
  apply mapM_forall in Hps. apply build_loop_forall in Hbuilds.
  rewrite Forall_forall in *. intros line Hin.
  destruct (Hps line Hin) as (text & Htext).
  destruct (Hbuilds line Hin) as (p & r & Hr).
  destruct (pose_decl_ok_inv _ _ Htext) as (name & epd & ex & ey & Hn & Hep & Hex & Hey).
  destruct (build_path_ok_inv _ _ _ Hr) as (cps & k & Hcps & Hk).
  exists name, epd, ex, ey, cps, k. auto 10.
Qed.

(** The failures at the top of [convert]: a document that is not a [dict]
    raises [TypeError]; a [dict] without [startPoint] or without [lines]
    raises [KeyError], whatever the rest of it holds. *)
Theorem top_level_errors (json_data : value) (class_name : string) :
  ((forall d, json_data <> VDict d) ->
   convert json_data class_name = Raise TypeError) /\
  (forall d,
      json_data = VDict d -> lookup "startPoint" d = None ->
      convert json_data class_name = Raise KeyError) /\
  (forall d start,
      json_data = VDict d -> lookup "startPoint" d = Some start ->
      lookup "lines" d = None ->
      convert json_data class_name = Raise KeyError).
Proof.
  unfold convert, convert_fragments. repeat split.
  - intros H. destruct json_data; try reflexivity. now destruct (H d).
  - intros d -> H. cbn [getitem]. now rewrite H.
  - intros d start -> Hs Hl. cbn [getitem]. now rewrite Hs, Hl.
Qed.

(** [lines] that is not a list: an empty [dict] or an empty string counts as
    no line at all; a non-empty [dict] or string raises [TypeError], its
    items being strings; anything else raises [TypeError], not being
    iterable. *)
Theorem lines_not_a_list (json_data start lines : value) (class_name : string) :
  field "startPoint" json_data = Some start ->
  is_point start = true ->
  field "lines" json_data = Some lines ->
  (iter lines = Ok [] ->
   convert_fragments json_data
   = Ok {| start_pose_line := start_pose_text start;
           poses := [];
           path_vars := "private PathChain ;";
           build_lines := [];
           update_lines := [final_case 0] |}) /\
  (forall kv d, lines = VDict (kv :: d) ->
                convert json_data class_name = Raise TypeError) /\
  (forall c s, lines = VStr (String c s) ->
               convert json_data class_name = Raise TypeError) /\
  (match lines with
   | VNone | VBool _ | VInt _ | VFloat _ => True
   | _ => False
   end -> convert json_data class_name = Raise TypeError).
Proof.
  intros Hs Hp Hl. unfold convert, convert_fragments.
  rewrite (getitem_field _ _ _ Hs), (getitem_field _ _ _ Hl). cbn [bind].
  rewrite (start_pose_decl_ok _ Hp). cbn [bind].
  repeat split.
  - intros ->. reflexivity.
  - intros kv d ->. reflexivity.
  - intros c s ->. reflexivity.
  - destruct lines; intros H; try reflexivity; destruct H.
Qed.

(** ** Control points, declarations and the class name *)

(** [controlPoints] that is not a list of points, for a line with a string
    [name] and a [dict] as [endPoint]: without the key, [KeyError]; an empty
    list, [dict] or string gives the straight line; a non-empty [dict] raises
    [KeyError] at its subscript [0]; a non-empty string, or a list whose
    first element is not a [dict], raises [TypeError]; a value without
    length raises [TypeError]. *)
Theorem control_points_not_points
    (prev_pose name : string) (line : value) (epd : list (string * value)) :
  field "name" line = Some (VStr name) ->
  field "endPoint" line = Some (VDict epd) ->
  (field "controlPoints" line = None -> build_path prev_pose line = Raise KeyError) /\
  (forall cps,
      field "controlPoints" line = Some cps ->
      ((cps = VList [] \/ cps = VDict [] \/ cps = VStr EmptyString) ->
       build_path prev_pose line
       = Ok (path_id line ++ " = follower.pathBuilder()" ++ nl
             ++ bezier_line prev_pose (end_pose_id line)
             ++ heading_text prev_pose line ++ "        .build();",
             end_pose_id line)) /\
      (forall kv d, cps = VDict (kv :: d) ->
                    build_path prev_pose line = Raise KeyError) /\
      (forall c s, cps = VStr (String c s) ->
                   build_path prev_pose line = Raise TypeError) /\
      (forall cp others, cps = VList (cp :: others) -> (forall d, cp <> VDict d) ->
                         build_path prev_pose line = Raise TypeError) /\
      (match cps with
       | VNone | VBool _ | VInt _ | VFloat _ => True
       | _ => False
       end -> build_path prev_pose line = Raise TypeError)).
Proof.
  intros Hn Hep.
  destruct (field_dict _ _ _ Hn) as (ld & ->). simpl in Hn, Hep.
  assert (Hend : seg_end_point (VDict ld) = VDict epd).
  { unfold seg_end_point. simpl. now rewrite Hep. }
  assert (Hname : seg_name (VDict ld) = name).
  { unfold seg_name. simpl. now rewrite Hn. }
  unfold build_path. cbn [getitem]. rewrite Hn, Hep. cbn [bind camel_case_of].
  rewrite get_dict. cbn [bind]. rewrite (constant_mode_ok _ _ Hend).
  split.
  - intros Hc. simpl in Hc. now rewrite Hc.
  - intros cps Hc. simpl in Hc. rewrite Hc. cbn [bind].
    unfold heading_text. unfold path_id, end_pose_id, identifier. rewrite Hname.
    split; [|split; [|split; [|split]]].
    + intros [-> | [-> | ->]]; cbn [len List.length String.length Nat.eqb bind];
        now rewrite !append_assoc.
    + intros kv d ->. reflexivity.
    + intros c s ->. reflexivity.
    + intros cp others -> Hcp. cbn [len List.length Nat.eqb bind first].
      destruct cp; try reflexivity. now destruct (Hcp d).
    + destruct cps; intros H; try reflexivity; destruct H.
Qed.

(** The declaration of the paths lists the path identifier of every segment
    once, in order; it is the identifier that the segment's statement
    assigns and that its state follows.  Without segment the declaration
    has no name at all. *)
Theorem path_declaration (json_data : value) :
  is_path_document json_data = true ->
  let segs := doc_lines json_data in
  exists fr,
    convert_fragments json_data = Ok fr /\
    path_vars fr = "private PathChain " ++ String.concat ", " (map path_id segs) ++ ";" /\
    (segs = [] -> path_vars fr = "private PathChain ;") /\
    forall i seg,
      nth_error segs i = Some seg ->
      nth_error (map path_id segs) i = Some (path_id seg) /\
      (exists rest,
          nth_error (build_lines fr) i
          = Some (path_id seg ++ " = follower.pathBuilder()" ++ rest)) /\
      nth_error (update_lines fr) i
      = Some (if Nat.eqb i 0 then first_case i (path_id seg)
              else busy_case i (path_id seg)).
Proof.
  intros H segs.
  exists (document_fragments json_data).
  split; [now apply convert_fragments_ok|].
  split; [reflexivity|].
  split.
  - intros Hs. unfold document_fragments. cbn [path_vars]. fold segs.
    now rewrite Hs.
  - intros i seg Hi.
    split; [now apply map_nth_error|]. split.
    + rewrite (build_lines_nth json_data i seg Hi). unfold statement_text. eauto.
    + unfold document_fragments. cbn [update_lines]. fold segs.
      assert (Ht : nth_error (state_table (map path_id segs)) i
                   = Some (transitional i (path_id seg))).
      { unfold state_table.
        rewrite (states_from_nth _ 0 i (path_id seg)); [reflexivity|].
        now apply map_nth_error. }
      rewrite (map_nth_error render_state i _ Ht).
      unfold transitional. destruct (Nat.eqb i 0); reflexivity.
Qed.

Lemma prefix_step (c : ascii) (x pre y : string) :
  x = pre ++ y -> String c x = String c pre ++ y.
Proof. intros ->. reflexivity. Qed.

Lemma prefix_done (y : string) : y = EmptyString ++ y.
Proof. reflexivity. Qed.

Lemma assemble_class_name (fr : fragments) :
  exists pre post, forall class_name, assemble class_name fr = pre ++ class_name ++ post.
Proof.
  eexists. eexists. intros class_name.
  unfold assemble. cbn [String.concat append]. rewrite append_assoc.
  repeat apply prefix_step. apply prefix_done.
Qed.

(** The class name is written at one place of the text and decides nothing
    else: a document that fails, fails the same for every class name, and
    the texts of a document for two class names differ by the name only. *)
Theorem class_name_placement (json_data : value) :
  (forall c1 c2 e,
      convert json_data c1 = Raise e -> convert json_data c2 = Raise e) /\
  (forall c1 out,
      convert json_data c1 = Ok out ->
      exists pre post,
        forall class_name, convert json_data class_name = Ok (pre ++ class_name ++ post)).
Proof.
  unfold convert. destruct (convert_fragments json_data) as [fr|e0]; cbn [bind].
  - split; [discriminate|]. intros _ _ _.
    destruct (assemble_class_name fr) as (pre & post & H).
    exists pre, post. intros class_name. now rewrite H.
  - split; [auto | discriminate].
Qed.

(** Names that give the same identifier are not told apart: the document is
    converted, and the two segments declare the same pose identifier and the
    same path identifier. *)
Theorem colliding_names_accepted
    (json_data : value) (class_name : string) (i j : nat) (si sj : value) :
  is_path_document json_data = true ->
  i <> j ->
  nth_error (doc_lines json_data) i = Some si ->
  nth_error (doc_lines json_data) j = Some sj ->
  camel_case (seg_name si) = camel_case (seg_name sj) ->
  exists fr id,
    convert_fragments json_data = Ok fr /\
    convert json_data class_name = Ok (assemble class_name fr) /\
    path_id si = path_id sj /\
    nth_error (poses fr) i
    = Some (pose_text id (canon (coordinate "x" (seg_end_point si)))
                      (canon (coordinate "y" (seg_end_point si)))
                      (canon (end_heading (seg_end_point si))) (seg_name si)) /\
    nth_error (poses fr) j
    = Some (pose_text id (canon (coordinate "x" (seg_end_point sj)))
                      (canon (coordinate "y" (seg_end_point sj)))
                      (canon (end_heading (seg_end_point sj))) (seg_name sj)).
Proof.
  intros H _ Hi Hj Heq.
  exists (document_fragments json_data), (end_pose_id si).
  split; [now apply convert_fragments_ok|].
  split; [now apply convert_ok|].
  split; [unfold path_id, identifier; now rewrite Heq|].
  split; [now apply poses_nth|].
  rewrite (poses_nth json_data j sj Hj). unfold segment_pose_text, end_pose_id, identifier.
  now rewrite Heq.
Qed.

End Conversion.

(** ** The properties on the sample documents *)

(** The literals of the examples are the doubles that Python reads. *)
Example float_literals :
  float_literal 857 10 = VFloat (S754_finite false 6030601376025805 (-46)) /\
  float_literal 90 1 = VFloat (S754_finite false 6333186975989760 (-46)) /\
  float_literal 12345 1000 = VFloat (S754_finite false 6949617174986097 (-49)) /\
  float_literal 123456 10000 = VFloat (S754_finite false 6949954944958149 (-49)).
Proof. repeat split; vm_compute; reflexivity. Qed.

(** Ties go to the even thousandth, and an integer is rounded to a double
    before it is written. *)
Example format_ties :
  f no_repr (VFloat (S754_finite true 1 (-4))) = Ok "-0.062" /\
  f no_repr (VInt (2 ^ 53 + 1)) = Ok "9007199254740992" /\
  f no_repr (VBool true) = Ok "1".
Proof. repeat split; vm_compute; reflexivity. Qed.

(** An integer past the range of a double is not a number of the schema:
    [f] raises on it. *)
Example f_overflow :
  is_number (VInt (10 ^ 400)) = false /\
  f no_repr (VInt (10 ^ 400)) = Raise OverflowError.
Proof. split; vm_compute; reflexivity. Qed.

Example camel_case_examples :
  camel_case "a__b _c_" = "aBC" /\ camel_case "_a" = "A" /\
  camel_case "hello WORLD_fooBar" = "helloWorldFoobar".
Proof. repeat split. Qed.


(** C2 on the sample document: the second statement starts from the end
    pose of the first segment. *)
Lemma chaining_invariant_witness :
  is_path_document sample_doc = true /\
  exists fr first_seg second_seg,
    nth_error (doc_lines sample_doc) 0 = Some first_seg /\
    nth_error (doc_lines sample_doc) 1 = Some second_seg /\
    convert_fragments no_repr sample_doc = Ok fr /\
    nth_error (build_lines fr) 1
    = Some (statement_text (end_pose_id first_seg) second_seg).
Proof.
  split; [reflexivity|].
  destruct (chaining_invariant no_repr sample_doc "Auto" eq_refl)
    as (fr & H1 & _ & _ & _ & _ & H6).
  exists fr. eexists. eexists.
  split; [reflexivity|]. split; [reflexivity|]. split; [exact H1|].
  apply (H6 0%nat _ _ eq_refl eq_refl).
Defined.

(** C3: the second segment of the sample document has two control points;
    the document is converted, and the statement uses the first one only. *)
Lemma two_control_points_not_rejected :
  exists seg fr,
    nth_error (doc_lines sample_doc) 1 = Some seg /\
    List.length (seg_control_points seg) = 2%nat /\
    (forall e, convert no_repr sample_doc "Auto" <> Raise e) /\
    convert_fragments no_repr sample_doc = Ok fr /\
    nth_error (build_lines fr) 1
    = Some ("goBackPath = follower.pathBuilder()" ++ nl
            ++ "        .addPath(new BezierCurve(" ++ nl
            ++ "                score1Pose," ++ nl
            ++ "                new Pose(5, 6), // Control point" ++ nl
            ++ "                goBackPose" ++ nl
            ++ "        ))" ++ nl
            ++ "        .setConstantHeadingInterpolation(goBackPose.getHeading())" ++ nl
            ++ "        .build();").
Proof.
  eexists. eexists.
  split; [reflexivity|]. split; [reflexivity|].
  split; [intros e H; vm_compute in H; discriminate|].
  split; vm_compute; reflexivity.
Qed.

(** C3, as the code has it, on the sample document: the curve of the second
    segment goes through its first control point, (5, 6). *)
Lemma control_points_after_first_ignored_witness :
  is_path_document sample_doc = true /\
  exists fr,
    convert_fragments no_repr sample_doc = Ok fr /\
    nth_error (build_lines fr) 1
    = Some ("goBackPath = follower.pathBuilder()" ++ nl
            ++ bezier_curve "score1Pose" "5" "6" "goBackPose"
            ++ constant_heading "goBackPose" ++ "        .build();").
Proof.
  split; [reflexivity|].
  destruct (control_points_after_first_ignored no_repr sample_doc "Auto" eq_refl)
    as (fr & H1 & _ & H3).
  exists fr. split; [exact H1|].
  destruct (H3 1%nat _ eq_refl) as (_ & Hcurve).
  rewrite (Hcurve _ _ eq_refl). vm_compute. reflexivity.
Defined.

(** C4 on names of one piece and of two pieces. *)
Lemma identifier_derivation_witness :
  is_ascii "go" = true /\ no_sep "go" /\ camel_case "go" = lower "go" /\
  is_ascii "Go_bACK" = true /\ camel_case "Go_bACK" = "goBack".
Proof.
  assert (H : no_sep "go").
  { intros c [<- | [<- | []]]; reflexivity. }
  assert (H' : no_sep "bACK").
  { intros c [<- | [<- | [<- | [<- | []]]]]; reflexivity. }
  assert (H'' : no_sep "Go").
  { intros c [<- | [<- | []]]; reflexivity. }
  destruct identifier_derivation as (_ & _ & Htwo & Hrest).
  split; [reflexivity|]. split; [exact H|].
  split; [apply (proj2 (proj2 (proj2 (proj2 (proj2 (proj2 (proj2 (proj2 (proj2
            Hrest))))))))); [reflexivity | exact H]|].
  split; [reflexivity|].
  apply (Htwo "Go" "b"%char "ACK" eq_refl H'' H').
Defined.


(** C6 on the sample document: [degrees] wins over [endDeg]. *)
Lemma end_heading_resolution_witness :
  is_path_document sample_doc = true /\
  exists fr,
    convert_fragments no_repr sample_doc = Ok fr /\
    nth_error (poses fr) 0
    = Some "private final Pose score1Pose = new Pose(24, 36, Math.toRadians(90)); // Score_1".
Proof.
  split; [reflexivity|].
  destruct (end_heading_resolution no_repr sample_doc "Auto" eq_refl)
    as (fr & H1 & _ & H3).
  exists fr. split; [exact H1|].
  destruct (H3 0%nat _ eq_refl) as (deg & Hp & _ & Hd & _).
  rewrite Hp, (Hd (VInt 90) eq_refl). vm_compute. reflexivity.
Defined.

(** C7 on the sample document: linear heading for the first segment,
    constant heading for the second. *)
Lemma heading_mode_selection_witness :
  is_path_document sample_doc = true /\
  exists fr,
    convert_fragments no_repr sample_doc = Ok fr /\
    nth_error (build_lines fr) 0
    = Some ("score1Path = follower.pathBuilder()" ++ nl
            ++ "        .addPath(new BezierLine(startPose, score1Pose))" ++ nl
            ++ "        .setLinearHeadingInterpolation(startPose.getHeading(), score1Pose.getHeading())"
            ++ nl ++ "        .build();") /\
    nth_error (build_lines fr) 1
    = Some ("goBackPath = follower.pathBuilder()" ++ nl
            ++ bezier_curve "score1Pose" "5" "6" "goBackPose"
            ++ "        .setConstantHeadingInterpolation(goBackPose.getHeading())"
            ++ nl ++ "        .build();").
Proof.
  split; [reflexivity|].
  destruct (heading_mode_selection no_repr sample_doc "Auto" eq_refl)
    as (fr & H1 & _ & H3).
  exists fr. split; [exact H1|]. split.
  - destruct (H3 0%nat _ eq_refl) as (directive & Hb & _ & Hlin).
    rewrite Hb, (Hlin ltac:(discriminate)). vm_compute. reflexivity.
  - destruct (H3 1%nat _ eq_refl) as (directive & Hb & Hconst & _).
    rewrite Hb, (Hconst eq_refl). vm_compute. reflexivity.
Defined.

(** C8: a segment named with two spaces; the document is converted, the
    pose of the segment being named [Pose]. *)
Lemma blank_name_not_rejected :
  exists seg fr,
    nth_error (doc_lines blank_name_doc) 0 = Some seg /\
    seg_name seg = "  " /\
    (forall e, convert no_repr blank_name_doc "Auto" <> Raise e) /\
    convert_fragments no_repr blank_name_doc = Ok fr /\
    poses fr = ["private final Pose Pose = new Pose(1, 2, Math.toRadians(0)); //   "].
Proof.
  eexists. eexists.
  split; [reflexivity|]. split; [reflexivity|].
  split; [intros e H; vm_compute in H; discriminate|].
  split; vm_compute; reflexivity.
Qed.

Lemma blank_names_accepted_witness :
  is_path_document blank_name_doc = true /\
  exists fr seg,
    nth_error (doc_lines blank_name_doc) 0 = Some seg /\
    blank (seg_name seg) = true /\
    convert_fragments no_repr blank_name_doc = Ok fr /\
    convert no_repr blank_name_doc "Auto" = Ok (assemble "Auto" fr) /\
    end_pose_id seg = "Pose".
Proof.
  split; [reflexivity|].
  destruct (blank_names_accepted no_repr blank_name_doc "Auto" eq_refl)
    as (_ & fr & H1 & H2 & H3).
  exists fr. eexists.
  split; [reflexivity|]. split; [reflexivity|].
  split; [exact H1|]. split; [exact H2|].
  apply (H3 0%nat _ eq_refl eq_refl).
Defined.

(** C9: a start point with [degrees] 90 and no [startDeg]; the start pose
    has heading 0. *)
Lemma start_degrees_not_read :
  field "degrees" (doc_start start_degrees_doc) = Some (VInt 90) /\
  field "endDeg" (doc_start start_degrees_doc) = None /\
  exists fr,
    convert_fragments no_repr start_degrees_doc = Ok fr /\
    start_pose_line fr
    = "private final Pose startPose = new Pose(0, 0, Math.toRadians(0)); // Start position" /\
    start_pose_line fr
    <> "private final Pose startPose = new Pose(0, 0, Math.toRadians(90)); // Start position".
Proof.
  split; [reflexivity|]. split; [reflexivity|].
  eexists. split; [vm_compute; reflexivity|].
  split; [reflexivity | discriminate].
Qed.

Lemma start_heading_resolution_witness :
  is_path_document start_degrees_doc = true /\
  exists fr,
    convert_fragments no_repr start_degrees_doc = Ok fr /\
    start_pose_line fr
    = "private final Pose startPose = new Pose(0, 0, Math.toRadians(0)); // Start position".
Proof.
  split; [reflexivity|].
  destruct (start_heading_resolution no_repr start_degrees_doc "Auto" eq_refl)
    as (fr & deg & H1 & _ & Hl & _ & _ & Hnone).
  exists fr. split; [exact H1|].
  rewrite Hl, (Hnone eq_refl). vm_compute. reflexivity.
Defined.

(** C10: no line and [x] equal to [10^400]; [convert] raises. *)
Lemma huge_coordinate_rejected :
  doc_lines huge_coordinate_doc = [] /\
  field "x" (doc_start huge_coordinate_doc) = Some (VInt (10 ^ 400)) /\
  field "y" (doc_start huge_coordinate_doc) = Some (VInt 0) /\
  convert no_repr huge_coordinate_doc "Auto" = Raise OverflowError.
Proof.
  split; [reflexivity|]. split; [reflexivity|]. split; [reflexivity|].
  vm_compute. reflexivity.
Qed.

(** C10, as the code has it, on the document without lines. *)
Lemma empty_document_witness :
  field "startPoint" empty_doc = Some (point 3 4 []) /\
  field "x" (point 3 4 []) = Some (VInt 3) /\
  field "y" (point 3 4 []) = Some (VInt 4) /\
  field "lines" empty_doc = Some (VList []) /\
  renders (VInt 3) && renders (VInt 4) && renders (start_heading (point 3 4 [])) = true /\
  exists fr,
    convert_fragments no_repr empty_doc = Ok fr /\
    start_pose_line fr
    = "private final Pose startPose = new Pose(3, 4, Math.toRadians(0)); // Start position" /\
    poses fr = [] /\ build_lines fr = [] /\
    update_lines fr = [final_case 0].
Proof.
  split; [reflexivity|]. split; [reflexivity|]. split; [reflexivity|].
  split; [reflexivity|]. split; [reflexivity|].
  destruct (empty_document no_repr empty_doc (point 3 4 []) (VInt 3) (VInt 4) "Auto"
              eq_refl eq_refl eq_refl eq_refl) as (Hok & _).
  destruct (Hok eq_refl)
    as (fr & sx & sy & sd & Hx & Hy & Hd & H1 & _ & H3 & H4 & H5 & H6 & _).
  exists fr. split; [exact H1|].
  split; [|split; [exact H4 | split; [exact H5 | exact H6]]].
  rewrite H3.
  assert (Ex : sx = "3") by (vm_compute in Hx; congruence).
  assert (Ey : sy = "4") by (vm_compute in Hy; congruence).
  assert (Ed : sd = "0") by (vm_compute in Hd; congruence).
  rewrite Ex, Ey, Ed. reflexivity.
Defined.

(** ** The further properties on sample input *)

Lemma camel_case_no_separator_witness :
  In "a"%char (list_ascii_of_string (camel_case "a_b")) /\ is_sep "a" = false.
Proof.
  assert (H : In "a"%char (list_ascii_of_string (camel_case "a_b"))).
  { left. reflexivity. }
  split; [exact H|]. apply (camel_case_no_separator "a_b" "a" H).
Defined.

Lemma camel_case_ignores_run_witness :
  is_sep "_" = true /\ is_sep " " = true /\
  camel_case "go_back" = camel_case "go back" /\
  camel_case "go_ back" = camel_case "go_back".
Proof.
  split; [reflexivity|]. split; [reflexivity|].
  apply (camel_case_ignores_run "go" "back" "_" " " eq_refl eq_refl).
Defined.

Lemma f_raises_only_on_large_int_witness :
  is_number (VInt (10 ^ 400)) = false /\
  f no_repr (VInt (10 ^ 400)) = Raise OverflowError.
Proof.
  assert (H : is_number (VInt (10 ^ 400)) = false) by (vm_compute; reflexivity).
  split; [exact H|].
  apply (proj2 (f_raises_only_on_large_int no_repr (VInt (10 ^ 400))) _ eq_refl H).
Defined.

Lemma canonical_text_strips_only_witness :
  is_number (VInt 90) = true /\
  exists out j k,
    f no_repr (VInt 90) = Ok out /\
    format_3f (float_of (VInt 90)) = out ++ replicate j "." ++ replicate k "0" /\
    (forall t, out <> t ++ ".").
Proof.
  split; [reflexivity|].
  apply (canonical_text_strips_only no_repr (VInt 90) eq_refl).
Defined.

Lemma small_negative_is_minus_zero_witness :
  (-20 < 0)%Z /\ (2 * (1 * 1000) <= 2 ^ (- -20))%Z /\
  f no_repr (VFloat (S754_finite true 1 (-20))) = Ok "-0".
Proof.
  assert (H1 : (-20 < 0)%Z) by reflexivity.
  assert (H2 : (2 * (Zpos 1 * 1000) <= 2 ^ (- -20))%Z) by (vm_compute; discriminate).
  split; [exact H1|]. split; [exact H2|].
  apply (small_negative_is_minus_zero no_repr 1 (-20) H1 H2).
Defined.

Lemma fragments_aligned_witness :
  convert_fragments no_repr sample_doc = Ok (document_fragments sample_doc) /\
  exists lines items,
    field "lines" sample_doc = Some lines /\
    iter lines = Ok items /\
    List.length (poses (document_fragments sample_doc)) = List.length items /\
    List.length (build_lines (document_fragments sample_doc)) = List.length items /\
    List.length (update_lines (document_fragments sample_doc)) = S (List.length items) /\
    nth_error (update_lines (document_fragments sample_doc)) (List.length items)
    = Some (final_case (List.length items)).
Proof.
  assert (H : convert_fragments no_repr sample_doc = Ok (document_fragments sample_doc))
    by (vm_compute; reflexivity).
  split; [exact H|].
  apply (fragments_aligned no_repr sample_doc _ H).
Defined.

Lemma accepted_document_shape_witness :
  convert no_repr sample_doc "Auto"
  = Ok (assemble "Auto" (document_fragments sample_doc)) /\
  exists startd x y lines items,
    field "startPoint" sample_doc = Some (VDict startd) /\
    lookup "x" startd = Some x /\ lookup "y" startd = Some y /\
    field "lines" sample_doc = Some lines /\
    iter lines = Ok items /\
    Forall line_shape items.
Proof.
  assert (H : convert no_repr sample_doc "Auto"
              = Ok (assemble "Auto" (document_fragments sample_doc)))
    by (vm_compute; reflexivity).
  split; [exact H|].
  apply (accepted_document_shape no_repr sample_doc "Auto" _ H).
Defined.

Lemma top_level_errors_witness :
  (forall d, VList [] <> VDict d) /\
  convert no_repr (VList []) "Auto" = Raise TypeError.
Proof.
  assert (H : forall d, VList [] <> VDict d) by discriminate.
  split; [exact H|].
  apply (proj1 (top_level_errors no_repr (VList []) "Auto") H).
Defined.

Lemma lines_not_a_list_witness :
  field "startPoint" dict_lines_doc = Some (point 0 0 []) /\
  is_point (point 0 0 []) = true /\
  field "lines" dict_lines_doc = Some (VDict []) /\
  convert_fragments no_repr dict_lines_doc
  = Ok {| start_pose_line := start_pose_text (point 0 0 []);
          poses := [];
          path_vars := "private PathChain ;";
          build_lines := [];
          update_lines := [final_case 0] |}.
Proof.
  split; [reflexivity|]. split; [reflexivity|]. split; [reflexivity|].
  apply (proj1 (lines_not_a_list no_repr dict_lines_doc (point 0 0 []) (VDict [])
                                 "Auto" eq_refl eq_refl eq_refl) eq_refl).
Defined.

Lemma control_points_not_points_witness :
  let line := VDict [("name", VStr "a"); ("endPoint", point 1 2 []);
                     ("controlPoints", VDict [("k", VNone)])] in
  field "name" line = Some (VStr "a") /\
  field "endPoint" line = Some (point 1 2 []) /\
  build_path no_repr "startPose" line = Raise KeyError.
Proof.
  intros line.
  split; [reflexivity|]. split; [reflexivity|].
  destruct (control_points_not_points no_repr "startPose" "a" line _ eq_refl eq_refl)
    as (_ & H).
  destruct (H _ eq_refl) as (_ & Hdict & _).
  apply (Hdict _ _ eq_refl).
Defined.

Lemma path_declaration_witness :
  is_path_document sample_doc = true /\
  exists fr,
    convert_fragments no_repr sample_doc = Ok fr /\
    path_vars fr = "private PathChain score1Path, goBackPath;".
Proof.
  split; [reflexivity|].
  destruct (path_declaration no_repr sample_doc eq_refl) as (fr & H1 & H2 & _).
  exists fr. split; [exact H1|]. rewrite H2. vm_compute. reflexivity.
Defined.

Lemma class_name_placement_witness :
  convert no_repr sample_doc "Auto"
  = Ok (assemble "Auto" (document_fragments sample_doc)) /\
  exists pre post,
    forall class_name,
      convert no_repr sample_doc class_name = Ok (pre ++ class_name ++ post).
Proof.
  assert (H : convert no_repr sample_doc "Auto"
              = Ok (assemble "Auto" (document_fragments sample_doc)))
    by (vm_compute; reflexivity).
  split; [exact H|].
  apply (proj2 (class_name_placement no_repr sample_doc) "Auto" _ H).
Defined.

Lemma colliding_names_accepted_witness :
  is_path_document colliding_doc = true /\
  exists fr id si sj,
    nth_error (doc_lines colliding_doc) 0 = Some si /\
    nth_error (doc_lines colliding_doc) 1 = Some sj /\
    seg_name si <> seg_name sj /\
    convert_fragments no_repr colliding_doc = Ok fr /\
    path_id si = path_id sj /\
    nth_error (poses fr) 0
    = Some (pose_text id "1" "2" "0" "Go_Back") /\
    nth_error (poses fr) 1
    = Some (pose_text id "3" "4" "0" "go  back").
Proof.
  split; [reflexivity|].
  destruct (colliding_names_accepted no_repr colliding_doc "Auto" 0 1 _ _
              eq_refl ltac:(discriminate) eq_refl eq_refl eq_refl)
    as (fr & id & H1 & _ & H3 & H4 & H5).
  exists fr, id. eexists. eexists.
  split; [reflexivity|]. split; [reflexivity|]. split; [discriminate|].
  split; [exact H1|]. split; [exact H3|]. split; [exact H4 | exact H5].
Defined.

Lemma camel_case_ignores_case_witness :
  is_ascii "Go_Back" = true /\ camel_case (lower "Go_Back") = camel_case "Go_Back".
Proof.
  split; [reflexivity|]. apply (camel_case_ignores_case "Go_Back" eq_refl).
Defined.

Lemma camel_case_keeps_characters_witness :
  is_ascii "Go_Back 2" = true /\
  lower (camel_case "Go_Back 2") = lower (strip_seps "Go_Back 2").
Proof.
  split; [reflexivity|]. apply (camel_case_keeps_characters "Go_Back 2" eq_refl).
Defined.
